(** * FinancialModelingPrep: a client for the financialmodelingprep.com API

    Shallow embedding of [financial_modeling_prep/financial_modeling_prep.py]
    and the properties of its request / validation workflow.

    Python values are modelled by [pyval], raised exceptions by [pyexn],
    and a method body by a computation of type [py A]: a state-passing
    function that may return a value or raise.  The outside world (the
    [requests] transport) is a parameter of the development. *)

From Stdlib Require Import ZArith Ascii String.
From stdpp Require Import base option list strings gmap.

Local Open Scope Z_scope.
Local Open Scope string_scope.

Set Warnings "-register-all".

(** ** Python values *)

(** What [response.json()] can evaluate to: JSON null, booleans, numbers,
    strings, arrays and objects.  A [float] is carried as its binary64 bit
    pattern; the client never inspects it.  A [str] is carried as its
    UTF-8 encoding.  A [dict] with [str] keys is a
    finite map: Python compares dicts by their key/value pairs, not by
    insertion order. *)
Inductive pyval : Type :=
| PyNone
| PyBool (b : bool)
| PyInt (z : Z)
| PyFloat (bits : Z)
| PyStr (s : string)
| PyList (l : list pyval)
| PyDict (d : gmap string pyval).

(** [type(v).__name__] *)
Definition type_name (v : pyval) : string :=
  match v with
  | PyNone => "NoneType"
  | PyBool _ => "bool"
  | PyInt _ => "int"
  | PyFloat _ => "float"
  | PyStr _ => "str"
  | PyList _ => "list"
  | PyDict _ => "dict"
  end.

(** ** Exceptions *)

(** The exceptions that occur: [Exception(msg)] raised by the client itself,
    the interpreter's [AttributeError] (type of the object, attribute),
    [KeyError] (the key) and [TypeError] (type of the offending operand), and
    whatever subclass of [Exception] the transport raises (class name and
    message). *)
Inductive pyexn : Type :=
| Exception (msg : string)
| AttributeError (type attr : string)
| KeyError (key : string)
| TypeError (type : string)
| TransportError (cls msg : string).

Inductive outcome (A : Type) : Type :=
| Returns (a : A)
| Raises (e : pyexn).
Arguments Returns {A} a.
Arguments Raises {A} e.

(** Code that computes without touching the world, but may raise. *)
#[export] Instance outcome_ret : MRet outcome := @Returns.
#[export] Instance outcome_bind : MBind outcome := fun A B f m =>
  match m with
  | Returns a => f a
  | Raises e => Raises e
  end.

(** ** Built-in operations used by the client *)

(** A [str] is carried as the UTF-8 encoding of its code points, so that
    concatenation and comparison are those of the bytes.  The first byte of
    an encoded code point tells how many bytes it takes. *)
Inductive width : Type := W1 | W2 | W3 | W4.

Definition utf8_width (b : ascii) : width :=
  let n := nat_of_ascii b in
  if (n <? 192)%nat then W1
  else if (n <? 224)%nat then W2
  else if (n <? 240)%nat then W3
  else W4.

(** [len(s)] of a [str]: the number of code points, which is the number of
    bytes that do not continue an encoded code point. *)
Fixpoint str_len (s : string) : nat :=
  match s with
  | EmptyString => 0
  | String b s' =>
      let n := nat_of_ascii b in
      ((if (128 <=? n) && (n <? 192) then 0 else 1) + str_len s')%nat
  end.

(** [c.upper()] of an ASCII character: the letters [a]-[z] go to [A]-[Z],
    every other character is kept. *)
Definition upper_char (c : ascii) : ascii :=
  let n := nat_of_ascii c in
  if ((97 <=? n) && (n <=? 122))%nat then ascii_of_nat (n - 32) else c.

(** [c.upper()] of the code points beyond ASCII that [str.upper] changes:
    the full case mapping of the Unicode Character Database 14.0.0, as
    CPython 3.11 applies it, one entry per code point, each side in
    UTF-8.  An entry may give several code points, or ASCII letters. *)
Definition upper_table : list (string * string) :=
  [ ("µ", "Μ"); ("ß", "SS"); ("à", "À"); ("á", "Á"); ("â", "Â"); ("ã", "Ã");
    ("ä", "Ä"); ("å", "Å"); ("æ", "Æ"); ("ç", "Ç"); ("è", "È"); ("é", "É");
    ("ê", "Ê"); ("ë", "Ë"); ("ì", "Ì"); ("í", "Í"); ("î", "Î"); ("ï", "Ï");
    ("ð", "Ð"); ("ñ", "Ñ"); ("ò", "Ò"); ("ó", "Ó"); ("ô", "Ô"); ("õ", "Õ");
    ("ö", "Ö"); ("ø", "Ø"); ("ù", "Ù"); ("ú", "Ú"); ("û", "Û"); ("ü", "Ü");
    ("ý", "Ý"); ("þ", "Þ"); ("ÿ", "Ÿ"); ("ā", "Ā"); ("ă", "Ă"); ("ą", "Ą");
    ("ć", "Ć"); ("ĉ", "Ĉ"); ("ċ", "Ċ"); ("č", "Č"); ("ď", "Ď"); ("đ", "Đ");
    ("ē", "Ē"); ("ĕ", "Ĕ"); ("ė", "Ė"); ("ę", "Ę"); ("ě", "Ě"); ("ĝ", "Ĝ");
    ("ğ", "Ğ"); ("ġ", "Ġ"); ("ģ", "Ģ"); ("ĥ", "Ĥ"); ("ħ", "Ħ"); ("ĩ", "Ĩ");
    ("ī", "Ī"); ("ĭ", "Ĭ"); ("į", "Į"); ("ı", "I"); ("ĳ", "Ĳ"); ("ĵ", "Ĵ");
    ("ķ", "Ķ"); ("ĺ", "Ĺ"); ("ļ", "Ļ"); ("ľ", "Ľ"); ("ŀ", "Ŀ"); ("ł", "Ł");
    ("ń", "Ń"); ("ņ", "Ņ"); ("ň", "Ň"); ("ŉ", "ʼN"); ("ŋ", "Ŋ"); ("ō", "Ō");
    ("ŏ", "Ŏ"); ("ő", "Ő"); ("œ", "Œ"); ("ŕ", "Ŕ"); ("ŗ", "Ŗ"); ("ř", "Ř");
    ("ś", "Ś"); ("ŝ", "Ŝ"); ("ş", "Ş"); ("š", "Š"); ("ţ", "Ţ"); ("ť", "Ť");
    ("ŧ", "Ŧ"); ("ũ", "Ũ"); ("ū", "Ū"); ("ŭ", "Ŭ"); ("ů", "Ů"); ("ű", "Ű");
    ("ų", "Ų"); ("ŵ", "Ŵ"); ("ŷ", "Ŷ"); ("ź", "Ź"); ("ż", "Ż"); ("ž", "Ž");
    ("ſ", "S"); ("ƀ", "Ƀ"); ("ƃ", "Ƃ"); ("ƅ", "Ƅ"); ("ƈ", "Ƈ"); ("ƌ", "Ƌ");
    ("ƒ", "Ƒ"); ("ƕ", "Ƕ"); ("ƙ", "Ƙ"); ("ƚ", "Ƚ"); ("ƞ", "Ƞ"); ("ơ", "Ơ");
    ("ƣ", "Ƣ"); ("ƥ", "Ƥ"); ("ƨ", "Ƨ"); ("ƭ", "Ƭ"); ("ư", "Ư"); ("ƴ", "Ƴ");
    ("ƶ", "Ƶ"); ("ƹ", "Ƹ"); ("ƽ", "Ƽ"); ("ƿ", "Ƿ"); ("ǅ", "Ǆ"); ("ǆ", "Ǆ");
    ("ǈ", "Ǉ"); ("ǉ", "Ǉ"); ("ǋ", "Ǌ"); ("ǌ", "Ǌ"); ("ǎ", "Ǎ"); ("ǐ", "Ǐ");
    ("ǒ", "Ǒ"); ("ǔ", "Ǔ"); ("ǖ", "Ǖ"); ("ǘ", "Ǘ"); ("ǚ", "Ǚ"); ("ǜ", "Ǜ");
    ("ǝ", "Ǝ"); ("ǟ", "Ǟ"); ("ǡ", "Ǡ"); ("ǣ", "Ǣ"); ("ǥ", "Ǥ"); ("ǧ", "Ǧ");
    ("ǩ", "Ǩ"); ("ǫ", "Ǫ"); ("ǭ", "Ǭ"); ("ǯ", "Ǯ"); ("ǰ", "J̌"); ("ǲ", "Ǳ");
    ("ǳ", "Ǳ"); ("ǵ", "Ǵ"); ("ǹ", "Ǹ"); ("ǻ", "Ǻ"); ("ǽ", "Ǽ"); ("ǿ", "Ǿ");
    ("ȁ", "Ȁ"); ("ȃ", "Ȃ"); ("ȅ", "Ȅ"); ("ȇ", "Ȇ"); ("ȉ", "Ȉ"); ("ȋ", "Ȋ");
    ("ȍ", "Ȍ"); ("ȏ", "Ȏ"); ("ȑ", "Ȑ"); ("ȓ", "Ȓ"); ("ȕ", "Ȕ"); ("ȗ", "Ȗ");
    ("ș", "Ș"); ("ț", "Ț"); ("ȝ", "Ȝ"); ("ȟ", "Ȟ"); ("ȣ", "Ȣ"); ("ȥ", "Ȥ");
    ("ȧ", "Ȧ"); ("ȩ", "Ȩ"); ("ȫ", "Ȫ"); ("ȭ", "Ȭ"); ("ȯ", "Ȯ"); ("ȱ", "Ȱ");
    ("ȳ", "Ȳ"); ("ȼ", "Ȼ"); ("ȿ", "Ȿ"); ("ɀ", "Ɀ"); ("ɂ", "Ɂ"); ("ɇ", "Ɇ");
    ("ɉ", "Ɉ"); ("ɋ", "Ɋ"); ("ɍ", "Ɍ"); ("ɏ", "Ɏ"); ("ɐ", "Ɐ"); ("ɑ", "Ɑ");
    ("ɒ", "Ɒ"); ("ɓ", "Ɓ"); ("ɔ", "Ɔ"); ("ɖ", "Ɖ"); ("ɗ", "Ɗ"); ("ə", "Ə");
    ("ɛ", "Ɛ"); ("ɜ", "Ɜ"); ("ɠ", "Ɠ"); ("ɡ", "Ɡ"); ("ɣ", "Ɣ"); ("ɥ", "Ɥ");
    ("ɦ", "Ɦ"); ("ɨ", "Ɨ"); ("ɩ", "Ɩ"); ("ɪ", "Ɪ"); ("ɫ", "Ɫ"); ("ɬ", "Ɬ");
    ("ɯ", "Ɯ"); ("ɱ", "Ɱ"); ("ɲ", "Ɲ"); ("ɵ", "Ɵ"); ("ɽ", "Ɽ"); ("ʀ", "Ʀ");
    ("ʂ", "Ʂ"); ("ʃ", "Ʃ"); ("ʇ", "Ʇ"); ("ʈ", "Ʈ"); ("ʉ", "Ʉ"); ("ʊ", "Ʊ");
    ("ʋ", "Ʋ"); ("ʌ", "Ʌ"); ("ʒ", "Ʒ"); ("ʝ", "Ʝ"); ("ʞ", "Ʞ"); ("ͅ", "Ι");
    ("ͱ", "Ͱ"); ("ͳ", "Ͳ"); ("ͷ", "Ͷ"); ("ͻ", "Ͻ"); ("ͼ", "Ͼ"); ("ͽ", "Ͽ");
    ("ΐ", "Ϊ́"); ("ά", "Ά"); ("έ", "Έ"); ("ή", "Ή"); ("ί", "Ί");
    ("ΰ", "Ϋ́"); ("α", "Α"); ("β", "Β"); ("γ", "Γ"); ("δ", "Δ"); ("ε", "Ε");
    ("ζ", "Ζ"); ("η", "Η"); ("θ", "Θ"); ("ι", "Ι"); ("κ", "Κ"); ("λ", "Λ");
    ("μ", "Μ"); ("ν", "Ν"); ("ξ", "Ξ"); ("ο", "Ο"); ("π", "Π"); ("ρ", "Ρ");
    ("ς", "Σ"); ("σ", "Σ"); ("τ", "Τ"); ("υ", "Υ"); ("φ", "Φ"); ("χ", "Χ");
    ("ψ", "Ψ"); ("ω", "Ω"); ("ϊ", "Ϊ"); ("ϋ", "Ϋ"); ("ό", "Ό"); ("ύ", "Ύ");
    ("ώ", "Ώ"); ("ϐ", "Β"); ("ϑ", "Θ"); ("ϕ", "Φ"); ("ϖ", "Π"); ("ϗ", "Ϗ");
    ("ϙ", "Ϙ"); ("ϛ", "Ϛ"); ("ϝ", "Ϝ"); ("ϟ", "Ϟ"); ("ϡ", "Ϡ"); ("ϣ", "Ϣ");
    ("ϥ", "Ϥ"); ("ϧ", "Ϧ"); ("ϩ", "Ϩ"); ("ϫ", "Ϫ"); ("ϭ", "Ϭ"); ("ϯ", "Ϯ");
    ("ϰ", "Κ"); ("ϱ", "Ρ"); ("ϲ", "Ϲ"); ("ϳ", "Ϳ"); ("ϵ", "Ε"); ("ϸ", "Ϸ");
    ("ϻ", "Ϻ"); ("а", "А"); ("б", "Б"); ("в", "В"); ("г", "Г"); ("д", "Д");
    ("е", "Е"); ("ж", "Ж"); ("з", "З"); ("и", "И"); ("й", "Й"); ("к", "К");
    ("л", "Л"); ("м", "М"); ("н", "Н"); ("о", "О"); ("п", "П"); ("р", "Р");
    ("с", "С"); ("т", "Т"); ("у", "У"); ("ф", "Ф"); ("х", "Х"); ("ц", "Ц");
    ("ч", "Ч"); ("ш", "Ш"); ("щ", "Щ"); ("ъ", "Ъ"); ("ы", "Ы"); ("ь", "Ь");
    ("э", "Э"); ("ю", "Ю"); ("я", "Я"); ("ѐ", "Ѐ"); ("ё", "Ё"); ("ђ", "Ђ");
    ("ѓ", "Ѓ"); ("є", "Є"); ("ѕ", "Ѕ"); ("і", "І"); ("ї", "Ї"); ("ј", "Ј");
    ("љ", "Љ"); ("њ", "Њ"); ("ћ", "Ћ"); ("ќ", "Ќ"); ("ѝ", "Ѝ"); ("ў", "Ў");
    ("џ", "Џ"); ("ѡ", "Ѡ"); ("ѣ", "Ѣ"); ("ѥ", "Ѥ"); ("ѧ", "Ѧ"); ("ѩ", "Ѩ");
    ("ѫ", "Ѫ"); ("ѭ", "Ѭ"); ("ѯ", "Ѯ"); ("ѱ", "Ѱ"); ("ѳ", "Ѳ"); ("ѵ", "Ѵ");
    ("ѷ", "Ѷ"); ("ѹ", "Ѹ"); ("ѻ", "Ѻ"); ("ѽ", "Ѽ"); ("ѿ", "Ѿ"); ("ҁ", "Ҁ");
    ("ҋ", "Ҋ"); ("ҍ", "Ҍ"); ("ҏ", "Ҏ"); ("ґ", "Ґ"); ("ғ", "Ғ"); ("ҕ", "Ҕ");
    ("җ", "Җ"); ("ҙ", "Ҙ"); ("қ", "Қ"); ("ҝ", "Ҝ"); ("ҟ", "Ҟ"); ("ҡ", "Ҡ");
    ("ң", "Ң"); ("ҥ", "Ҥ"); ("ҧ", "Ҧ"); ("ҩ", "Ҩ"); ("ҫ", "Ҫ"); ("ҭ", "Ҭ");
    ("ү", "Ү"); ("ұ", "Ұ"); ("ҳ", "Ҳ"); ("ҵ", "Ҵ"); ("ҷ", "Ҷ"); ("ҹ", "Ҹ");
    ("һ", "Һ"); ("ҽ", "Ҽ"); ("ҿ", "Ҿ"); ("ӂ", "Ӂ"); ("ӄ", "Ӄ"); ("ӆ", "Ӆ");
    ("ӈ", "Ӈ"); ("ӊ", "Ӊ"); ("ӌ", "Ӌ"); ("ӎ", "Ӎ"); ("ӏ", "Ӏ"); ("ӑ", "Ӑ");
    ("ӓ", "Ӓ"); ("ӕ", "Ӕ"); ("ӗ", "Ӗ"); ("ә", "Ә"); ("ӛ", "Ӛ"); ("ӝ", "Ӝ");
    ("ӟ", "Ӟ"); ("ӡ", "Ӡ"); ("ӣ", "Ӣ"); ("ӥ", "Ӥ"); ("ӧ", "Ӧ"); ("ө", "Ө");
    ("ӫ", "Ӫ"); ("ӭ", "Ӭ"); ("ӯ", "Ӯ"); ("ӱ", "Ӱ"); ("ӳ", "Ӳ"); ("ӵ", "Ӵ");
    ("ӷ", "Ӷ"); ("ӹ", "Ӹ"); ("ӻ", "Ӻ"); ("ӽ", "Ӽ"); ("ӿ", "Ӿ"); ("ԁ", "Ԁ");
    ("ԃ", "Ԃ"); ("ԅ", "Ԅ"); ("ԇ", "Ԇ"); ("ԉ", "Ԉ"); ("ԋ", "Ԋ"); ("ԍ", "Ԍ");
    ("ԏ", "Ԏ"); ("ԑ", "Ԑ"); ("ԓ", "Ԓ"); ("ԕ", "Ԕ"); ("ԗ", "Ԗ"); ("ԙ", "Ԙ");
    ("ԛ", "Ԛ"); ("ԝ", "Ԝ"); ("ԟ", "Ԟ"); ("ԡ", "Ԡ"); ("ԣ", "Ԣ"); ("ԥ", "Ԥ");
    ("ԧ", "Ԧ"); ("ԩ", "Ԩ"); ("ԫ", "Ԫ"); ("ԭ", "Ԭ"); ("ԯ", "Ԯ"); ("ա", "Ա");
    ("բ", "Բ"); ("գ", "Գ"); ("դ", "Դ"); ("ե", "Ե"); ("զ", "Զ"); ("է", "Է");
    ("ը", "Ը"); ("թ", "Թ"); ("ժ", "Ժ"); ("ի", "Ի"); ("լ", "Լ"); ("խ", "Խ");
    ("ծ", "Ծ"); ("կ", "Կ"); ("հ", "Հ"); ("ձ", "Ձ"); ("ղ", "Ղ"); ("ճ", "Ճ");
    ("մ", "Մ"); ("յ", "Յ"); ("ն", "Ն"); ("շ", "Շ"); ("ո", "Ո"); ("չ", "Չ");
    ("պ", "Պ"); ("ջ", "Ջ"); ("ռ", "Ռ"); ("ս", "Ս"); ("վ", "Վ"); ("տ", "Տ");
    ("ր", "Ր"); ("ց", "Ց"); ("ւ", "Ւ"); ("փ", "Փ"); ("ք", "Ք"); ("օ", "Օ");
    ("ֆ", "Ֆ"); ("և", "ԵՒ"); ("ა", "Ა"); ("ბ", "Ბ"); ("გ", "Გ"); ("დ", "Დ");
    ("ე", "Ე"); ("ვ", "Ვ"); ("ზ", "Ზ"); ("თ", "Თ"); ("ი", "Ი"); ("კ", "Კ");
    ("ლ", "Ლ"); ("მ", "Მ"); ("ნ", "Ნ"); ("ო", "Ო"); ("პ", "Პ"); ("ჟ", "Ჟ");
    ("რ", "Რ"); ("ს", "Ს"); ("ტ", "Ტ"); ("უ", "Უ"); ("ფ", "Ფ"); ("ქ", "Ქ");
    ("ღ", "Ღ"); ("ყ", "Ყ"); ("შ", "Შ"); ("ჩ", "Ჩ"); ("ც", "Ც"); ("ძ", "Ძ");
    ("წ", "Წ"); ("ჭ", "Ჭ"); ("ხ", "Ხ"); ("ჯ", "Ჯ"); ("ჰ", "Ჰ"); ("ჱ", "Ჱ");
    ("ჲ", "Ჲ"); ("ჳ", "Ჳ"); ("ჴ", "Ჴ"); ("ჵ", "Ჵ"); ("ჶ", "Ჶ"); ("ჷ", "Ჷ");
    ("ჸ", "Ჸ"); ("ჹ", "Ჹ"); ("ჺ", "Ჺ"); ("ჽ", "Ჽ"); ("ჾ", "Ჾ"); ("ჿ", "Ჿ");
    ("ᏸ", "Ᏸ"); ("ᏹ", "Ᏹ"); ("ᏺ", "Ᏺ"); ("ᏻ", "Ᏻ"); ("ᏼ", "Ᏼ"); ("ᏽ", "Ᏽ");
    ("ᲀ", "В"); ("ᲁ", "Д"); ("ᲂ", "О"); ("ᲃ", "С"); ("ᲄ", "Т"); ("ᲅ", "Т");
    ("ᲆ", "Ъ"); ("ᲇ", "Ѣ"); ("ᲈ", "Ꙋ"); ("ᵹ", "Ᵹ"); ("ᵽ", "Ᵽ"); ("ᶎ", "Ᶎ");
    ("ḁ", "Ḁ"); ("ḃ", "Ḃ"); ("ḅ", "Ḅ"); ("ḇ", "Ḇ"); ("ḉ", "Ḉ"); ("ḋ", "Ḋ");
    ("ḍ", "Ḍ"); ("ḏ", "Ḏ"); ("ḑ", "Ḑ"); ("ḓ", "Ḓ"); ("ḕ", "Ḕ"); ("ḗ", "Ḗ");
    ("ḙ", "Ḙ"); ("ḛ", "Ḛ"); ("ḝ", "Ḝ"); ("ḟ", "Ḟ"); ("ḡ", "Ḡ"); ("ḣ", "Ḣ");
    ("ḥ", "Ḥ"); ("ḧ", "Ḧ"); ("ḩ", "Ḩ"); ("ḫ", "Ḫ"); ("ḭ", "Ḭ"); ("ḯ", "Ḯ");
    ("ḱ", "Ḱ"); ("ḳ", "Ḳ"); ("ḵ", "Ḵ"); ("ḷ", "Ḷ"); ("ḹ", "Ḹ"); ("ḻ", "Ḻ");
    ("ḽ", "Ḽ"); ("ḿ", "Ḿ"); ("ṁ", "Ṁ"); ("ṃ", "Ṃ"); ("ṅ", "Ṅ"); ("ṇ", "Ṇ");
    ("ṉ", "Ṉ"); ("ṋ", "Ṋ"); ("ṍ", "Ṍ"); ("ṏ", "Ṏ"); ("ṑ", "Ṑ"); ("ṓ", "Ṓ");
    ("ṕ", "Ṕ"); ("ṗ", "Ṗ"); ("ṙ", "Ṙ"); ("ṛ", "Ṛ"); ("ṝ", "Ṝ"); ("ṟ", "Ṟ");
    ("ṡ", "Ṡ"); ("ṣ", "Ṣ"); ("ṥ", "Ṥ"); ("ṧ", "Ṧ"); ("ṩ", "Ṩ"); ("ṫ", "Ṫ");
    ("ṭ", "Ṭ"); ("ṯ", "Ṯ"); ("ṱ", "Ṱ"); ("ṳ", "Ṳ"); ("ṵ", "Ṵ"); ("ṷ", "Ṷ");
    ("ṹ", "Ṹ"); ("ṻ", "Ṻ"); ("ṽ", "Ṽ"); ("ṿ", "Ṿ"); ("ẁ", "Ẁ"); ("ẃ", "Ẃ");
    ("ẅ", "Ẅ"); ("ẇ", "Ẇ"); ("ẉ", "Ẉ"); ("ẋ", "Ẋ"); ("ẍ", "Ẍ"); ("ẏ", "Ẏ");
    ("ẑ", "Ẑ"); ("ẓ", "Ẓ"); ("ẕ", "Ẕ"); ("ẖ", "H̱"); ("ẗ", "T̈");
    ("ẘ", "W̊"); ("ẙ", "Y̊"); ("ẚ", "Aʾ"); ("ẛ", "Ṡ"); ("ạ", "Ạ");
    ("ả", "Ả"); ("ấ", "Ấ"); ("ầ", "Ầ"); ("ẩ", "Ẩ"); ("ẫ", "Ẫ"); ("ậ", "Ậ");
    ("ắ", "Ắ"); ("ằ", "Ằ"); ("ẳ", "Ẳ"); ("ẵ", "Ẵ"); ("ặ", "Ặ"); ("ẹ", "Ẹ");
    ("ẻ", "Ẻ"); ("ẽ", "Ẽ"); ("ế", "Ế"); ("ề", "Ề"); ("ể", "Ể"); ("ễ", "Ễ");
    ("ệ", "Ệ"); ("ỉ", "Ỉ"); ("ị", "Ị"); ("ọ", "Ọ"); ("ỏ", "Ỏ"); ("ố", "Ố");
    ("ồ", "Ồ"); ("ổ", "Ổ"); ("ỗ", "Ỗ"); ("ộ", "Ộ"); ("ớ", "Ớ"); ("ờ", "Ờ");
    ("ở", "Ở"); ("ỡ", "Ỡ"); ("ợ", "Ợ"); ("ụ", "Ụ"); ("ủ", "Ủ"); ("ứ", "Ứ");
    ("ừ", "Ừ"); ("ử", "Ử"); ("ữ", "Ữ"); ("ự", "Ự"); ("ỳ", "Ỳ"); ("ỵ", "Ỵ");
    ("ỷ", "Ỷ"); ("ỹ", "Ỹ"); ("ỻ", "Ỻ"); ("ỽ", "Ỽ"); ("ỿ", "Ỿ"); ("ἀ", "Ἀ");
    ("ἁ", "Ἁ"); ("ἂ", "Ἂ"); ("ἃ", "Ἃ"); ("ἄ", "Ἄ"); ("ἅ", "Ἅ"); ("ἆ", "Ἆ");
    ("ἇ", "Ἇ"); ("ἐ", "Ἐ"); ("ἑ", "Ἑ"); ("ἒ", "Ἒ"); ("ἓ", "Ἓ"); ("ἔ", "Ἔ");
    ("ἕ", "Ἕ"); ("ἠ", "Ἠ"); ("ἡ", "Ἡ"); ("ἢ", "Ἢ"); ("ἣ", "Ἣ"); ("ἤ", "Ἤ");
    ("ἥ", "Ἥ"); ("ἦ", "Ἦ"); ("ἧ", "Ἧ"); ("ἰ", "Ἰ"); ("ἱ", "Ἱ"); ("ἲ", "Ἲ");
    ("ἳ", "Ἳ"); ("ἴ", "Ἴ"); ("ἵ", "Ἵ"); ("ἶ", "Ἶ"); ("ἷ", "Ἷ"); ("ὀ", "Ὀ");
    ("ὁ", "Ὁ"); ("ὂ", "Ὂ"); ("ὃ", "Ὃ"); ("ὄ", "Ὄ"); ("ὅ", "Ὅ"); ("ὐ", "Υ̓");
    ("ὑ", "Ὑ"); ("ὒ", "Υ̓̀"); ("ὓ", "Ὓ"); ("ὔ", "Υ̓́"); ("ὕ", "Ὕ");
    ("ὖ", "Υ̓͂"); ("ὗ", "Ὗ"); ("ὠ", "Ὠ"); ("ὡ", "Ὡ"); ("ὢ", "Ὢ"); ("ὣ", "Ὣ");
    ("ὤ", "Ὤ"); ("ὥ", "Ὥ"); ("ὦ", "Ὦ"); ("ὧ", "Ὧ"); ("ὰ", "Ὰ"); ("ά", "Ά");
    ("ὲ", "Ὲ"); ("έ", "Έ"); ("ὴ", "Ὴ"); ("ή", "Ή"); ("ὶ", "Ὶ"); ("ί", "Ί");
    ("ὸ", "Ὸ"); ("ό", "Ό"); ("ὺ", "Ὺ"); ("ύ", "Ύ"); ("ὼ", "Ὼ"); ("ώ", "Ώ");
    ("ᾀ", "ἈΙ"); ("ᾁ", "ἉΙ"); ("ᾂ", "ἊΙ"); ("ᾃ", "ἋΙ"); ("ᾄ", "ἌΙ");
    ("ᾅ", "ἍΙ"); ("ᾆ", "ἎΙ"); ("ᾇ", "ἏΙ"); ("ᾈ", "ἈΙ"); ("ᾉ", "ἉΙ");
    ("ᾊ", "ἊΙ"); ("ᾋ", "ἋΙ"); ("ᾌ", "ἌΙ"); ("ᾍ", "ἍΙ"); ("ᾎ", "ἎΙ");
    ("ᾏ", "ἏΙ"); ("ᾐ", "ἨΙ"); ("ᾑ", "ἩΙ"); ("ᾒ", "ἪΙ"); ("ᾓ", "ἫΙ");
    ("ᾔ", "ἬΙ"); ("ᾕ", "ἭΙ"); ("ᾖ", "ἮΙ"); ("ᾗ", "ἯΙ"); ("ᾘ", "ἨΙ");
    ("ᾙ", "ἩΙ"); ("ᾚ", "ἪΙ"); ("ᾛ", "ἫΙ"); ("ᾜ", "ἬΙ"); ("ᾝ", "ἭΙ");
    ("ᾞ", "ἮΙ"); ("ᾟ", "ἯΙ"); ("ᾠ", "ὨΙ"); ("ᾡ", "ὩΙ"); ("ᾢ", "ὪΙ");
    ("ᾣ", "ὫΙ"); ("ᾤ", "ὬΙ"); ("ᾥ", "ὭΙ"); ("ᾦ", "ὮΙ"); ("ᾧ", "ὯΙ");
    ("ᾨ", "ὨΙ"); ("ᾩ", "ὩΙ"); ("ᾪ", "ὪΙ"); ("ᾫ", "ὫΙ"); ("ᾬ", "ὬΙ");
    ("ᾭ", "ὭΙ"); ("ᾮ", "ὮΙ"); ("ᾯ", "ὯΙ"); ("ᾰ", "Ᾰ"); ("ᾱ", "Ᾱ");
    ("ᾲ", "ᾺΙ"); ("ᾳ", "ΑΙ"); ("ᾴ", "ΆΙ"); ("ᾶ", "Α͂"); ("ᾷ", "Α͂Ι");
    ("ᾼ", "ΑΙ"); ("ι", "Ι"); ("ῂ", "ῊΙ"); ("ῃ", "ΗΙ"); ("ῄ", "ΉΙ");
    ("ῆ", "Η͂"); ("ῇ", "Η͂Ι"); ("ῌ", "ΗΙ"); ("ῐ", "Ῐ"); ("ῑ", "Ῑ");
    ("ῒ", "Ϊ̀"); ("ΐ", "Ϊ́"); ("ῖ", "Ι͂"); ("ῗ", "Ϊ͂"); ("ῠ", "Ῠ");
    ("ῡ", "Ῡ"); ("ῢ", "Ϋ̀"); ("ΰ", "Ϋ́"); ("ῤ", "Ρ̓"); ("ῥ", "Ῥ");
    ("ῦ", "Υ͂"); ("ῧ", "Ϋ͂"); ("ῲ", "ῺΙ"); ("ῳ", "ΩΙ"); ("ῴ", "ΏΙ");
    ("ῶ", "Ω͂"); ("ῷ", "Ω͂Ι"); ("ῼ", "ΩΙ"); ("ⅎ", "Ⅎ"); ("ⅰ", "Ⅰ");
    ("ⅱ", "Ⅱ"); ("ⅲ", "Ⅲ"); ("ⅳ", "Ⅳ"); ("ⅴ", "Ⅴ"); ("ⅵ", "Ⅵ"); ("ⅶ", "Ⅶ");
    ("ⅷ", "Ⅷ"); ("ⅸ", "Ⅸ"); ("ⅹ", "Ⅹ"); ("ⅺ", "Ⅺ"); ("ⅻ", "Ⅻ"); ("ⅼ", "Ⅼ");
    ("ⅽ", "Ⅽ"); ("ⅾ", "Ⅾ"); ("ⅿ", "Ⅿ"); ("ↄ", "Ↄ"); ("ⓐ", "Ⓐ"); ("ⓑ", "Ⓑ");
    ("ⓒ", "Ⓒ"); ("ⓓ", "Ⓓ"); ("ⓔ", "Ⓔ"); ("ⓕ", "Ⓕ"); ("ⓖ", "Ⓖ"); ("ⓗ", "Ⓗ");
    ("ⓘ", "Ⓘ"); ("ⓙ", "Ⓙ"); ("ⓚ", "Ⓚ"); ("ⓛ", "Ⓛ"); ("ⓜ", "Ⓜ"); ("ⓝ", "Ⓝ");
    ("ⓞ", "Ⓞ"); ("ⓟ", "Ⓟ"); ("ⓠ", "Ⓠ"); ("ⓡ", "Ⓡ"); ("ⓢ", "Ⓢ"); ("ⓣ", "Ⓣ");
    ("ⓤ", "Ⓤ"); ("ⓥ", "Ⓥ"); ("ⓦ", "Ⓦ"); ("ⓧ", "Ⓧ"); ("ⓨ", "Ⓨ"); ("ⓩ", "Ⓩ");
    ("ⰰ", "Ⰰ"); ("ⰱ", "Ⰱ"); ("ⰲ", "Ⰲ"); ("ⰳ", "Ⰳ"); ("ⰴ", "Ⰴ"); ("ⰵ", "Ⰵ");
    ("ⰶ", "Ⰶ"); ("ⰷ", "Ⰷ"); ("ⰸ", "Ⰸ"); ("ⰹ", "Ⰹ"); ("ⰺ", "Ⰺ"); ("ⰻ", "Ⰻ");
    ("ⰼ", "Ⰼ"); ("ⰽ", "Ⰽ"); ("ⰾ", "Ⰾ"); ("ⰿ", "Ⰿ"); ("ⱀ", "Ⱀ"); ("ⱁ", "Ⱁ");
    ("ⱂ", "Ⱂ"); ("ⱃ", "Ⱃ"); ("ⱄ", "Ⱄ"); ("ⱅ", "Ⱅ"); ("ⱆ", "Ⱆ"); ("ⱇ", "Ⱇ");
    ("ⱈ", "Ⱈ"); ("ⱉ", "Ⱉ"); ("ⱊ", "Ⱊ"); ("ⱋ", "Ⱋ"); ("ⱌ", "Ⱌ"); ("ⱍ", "Ⱍ");
    ("ⱎ", "Ⱎ"); ("ⱏ", "Ⱏ"); ("ⱐ", "Ⱐ"); ("ⱑ", "Ⱑ"); ("ⱒ", "Ⱒ"); ("ⱓ", "Ⱓ");
    ("ⱔ", "Ⱔ"); ("ⱕ", "Ⱕ"); ("ⱖ", "Ⱖ"); ("ⱗ", "Ⱗ"); ("ⱘ", "Ⱘ"); ("ⱙ", "Ⱙ");
    ("ⱚ", "Ⱚ"); ("ⱛ", "Ⱛ"); ("ⱜ", "Ⱜ"); ("ⱝ", "Ⱝ"); ("ⱞ", "Ⱞ"); ("ⱟ", "Ⱟ");
    ("ⱡ", "Ⱡ"); ("ⱥ", "Ⱥ"); ("ⱦ", "Ⱦ"); ("ⱨ", "Ⱨ"); ("ⱪ", "Ⱪ"); ("ⱬ", "Ⱬ");
    ("ⱳ", "Ⱳ"); ("ⱶ", "Ⱶ"); ("ⲁ", "Ⲁ"); ("ⲃ", "Ⲃ"); ("ⲅ", "Ⲅ"); ("ⲇ", "Ⲇ");
    ("ⲉ", "Ⲉ"); ("ⲋ", "Ⲋ"); ("ⲍ", "Ⲍ"); ("ⲏ", "Ⲏ"); ("ⲑ", "Ⲑ"); ("ⲓ", "Ⲓ");
    ("ⲕ", "Ⲕ"); ("ⲗ", "Ⲗ"); ("ⲙ", "Ⲙ"); ("ⲛ", "Ⲛ"); ("ⲝ", "Ⲝ"); ("ⲟ", "Ⲟ");
    ("ⲡ", "Ⲡ"); ("ⲣ", "Ⲣ"); ("ⲥ", "Ⲥ"); ("ⲧ", "Ⲧ"); ("ⲩ", "Ⲩ"); ("ⲫ", "Ⲫ");
    ("ⲭ", "Ⲭ"); ("ⲯ", "Ⲯ"); ("ⲱ", "Ⲱ"); ("ⲳ", "Ⲳ"); ("ⲵ", "Ⲵ"); ("ⲷ", "Ⲷ");
    ("ⲹ", "Ⲹ"); ("ⲻ", "Ⲻ"); ("ⲽ", "Ⲽ"); ("ⲿ", "Ⲿ"); ("ⳁ", "Ⳁ"); ("ⳃ", "Ⳃ");
    ("ⳅ", "Ⳅ"); ("ⳇ", "Ⳇ"); ("ⳉ", "Ⳉ"); ("ⳋ", "Ⳋ"); ("ⳍ", "Ⳍ"); ("ⳏ", "Ⳏ");
    ("ⳑ", "Ⳑ"); ("ⳓ", "Ⳓ"); ("ⳕ", "Ⳕ"); ("ⳗ", "Ⳗ"); ("ⳙ", "Ⳙ"); ("ⳛ", "Ⳛ");
    ("ⳝ", "Ⳝ"); ("ⳟ", "Ⳟ"); ("ⳡ", "Ⳡ"); ("ⳣ", "Ⳣ"); ("ⳬ", "Ⳬ"); ("ⳮ", "Ⳮ");
    ("ⳳ", "Ⳳ"); ("ⴀ", "Ⴀ"); ("ⴁ", "Ⴁ"); ("ⴂ", "Ⴂ"); ("ⴃ", "Ⴃ"); ("ⴄ", "Ⴄ");
    ("ⴅ", "Ⴅ"); ("ⴆ", "Ⴆ"); ("ⴇ", "Ⴇ"); ("ⴈ", "Ⴈ"); ("ⴉ", "Ⴉ"); ("ⴊ", "Ⴊ");
    ("ⴋ", "Ⴋ"); ("ⴌ", "Ⴌ"); ("ⴍ", "Ⴍ"); ("ⴎ", "Ⴎ"); ("ⴏ", "Ⴏ"); ("ⴐ", "Ⴐ");
    ("ⴑ", "Ⴑ"); ("ⴒ", "Ⴒ"); ("ⴓ", "Ⴓ"); ("ⴔ", "Ⴔ"); ("ⴕ", "Ⴕ"); ("ⴖ", "Ⴖ");
    ("ⴗ", "Ⴗ"); ("ⴘ", "Ⴘ"); ("ⴙ", "Ⴙ"); ("ⴚ", "Ⴚ"); ("ⴛ", "Ⴛ"); ("ⴜ", "Ⴜ");
    ("ⴝ", "Ⴝ"); ("ⴞ", "Ⴞ"); ("ⴟ", "Ⴟ"); ("ⴠ", "Ⴠ"); ("ⴡ", "Ⴡ"); ("ⴢ", "Ⴢ");
    ("ⴣ", "Ⴣ"); ("ⴤ", "Ⴤ"); ("ⴥ", "Ⴥ"); ("ⴧ", "Ⴧ"); ("ⴭ", "Ⴭ"); ("ꙁ", "Ꙁ");
    ("ꙃ", "Ꙃ"); ("ꙅ", "Ꙅ"); ("ꙇ", "Ꙇ"); ("ꙉ", "Ꙉ"); ("ꙋ", "Ꙋ"); ("ꙍ", "Ꙍ");
    ("ꙏ", "Ꙏ"); ("ꙑ", "Ꙑ"); ("ꙓ", "Ꙓ"); ("ꙕ", "Ꙕ"); ("ꙗ", "Ꙗ"); ("ꙙ", "Ꙙ");
    ("ꙛ", "Ꙛ"); ("ꙝ", "Ꙝ"); ("ꙟ", "Ꙟ"); ("ꙡ", "Ꙡ"); ("ꙣ", "Ꙣ"); ("ꙥ", "Ꙥ");
    ("ꙧ", "Ꙧ"); ("ꙩ", "Ꙩ"); ("ꙫ", "Ꙫ"); ("ꙭ", "Ꙭ"); ("ꚁ", "Ꚁ"); ("ꚃ", "Ꚃ");
    ("ꚅ", "Ꚅ"); ("ꚇ", "Ꚇ"); ("ꚉ", "Ꚉ"); ("ꚋ", "Ꚋ"); ("ꚍ", "Ꚍ"); ("ꚏ", "Ꚏ");
    ("ꚑ", "Ꚑ"); ("ꚓ", "Ꚓ"); ("ꚕ", "Ꚕ"); ("ꚗ", "Ꚗ"); ("ꚙ", "Ꚙ"); ("ꚛ", "Ꚛ");
    ("ꜣ", "Ꜣ"); ("ꜥ", "Ꜥ"); ("ꜧ", "Ꜧ"); ("ꜩ", "Ꜩ"); ("ꜫ", "Ꜫ"); ("ꜭ", "Ꜭ");
    ("ꜯ", "Ꜯ"); ("ꜳ", "Ꜳ"); ("ꜵ", "Ꜵ"); ("ꜷ", "Ꜷ"); ("ꜹ", "Ꜹ"); ("ꜻ", "Ꜻ");
    ("ꜽ", "Ꜽ"); ("ꜿ", "Ꜿ"); ("ꝁ", "Ꝁ"); ("ꝃ", "Ꝃ"); ("ꝅ", "Ꝅ"); ("ꝇ", "Ꝇ");
    ("ꝉ", "Ꝉ"); ("ꝋ", "Ꝋ"); ("ꝍ", "Ꝍ"); ("ꝏ", "Ꝏ"); ("ꝑ", "Ꝑ"); ("ꝓ", "Ꝓ");
    ("ꝕ", "Ꝕ"); ("ꝗ", "Ꝗ"); ("ꝙ", "Ꝙ"); ("ꝛ", "Ꝛ"); ("ꝝ", "Ꝝ"); ("ꝟ", "Ꝟ");
    ("ꝡ", "Ꝡ"); ("ꝣ", "Ꝣ"); ("ꝥ", "Ꝥ"); ("ꝧ", "Ꝧ"); ("ꝩ", "Ꝩ"); ("ꝫ", "Ꝫ");
    ("ꝭ", "Ꝭ"); ("ꝯ", "Ꝯ"); ("ꝺ", "Ꝺ"); ("ꝼ", "Ꝼ"); ("ꝿ", "Ꝿ"); ("ꞁ", "Ꞁ");
    ("ꞃ", "Ꞃ"); ("ꞅ", "Ꞅ"); ("ꞇ", "Ꞇ"); ("ꞌ", "Ꞌ"); ("ꞑ", "Ꞑ"); ("ꞓ", "Ꞓ");
    ("ꞔ", "Ꞔ"); ("ꞗ", "Ꞗ"); ("ꞙ", "Ꞙ"); ("ꞛ", "Ꞛ"); ("ꞝ", "Ꞝ"); ("ꞟ", "Ꞟ");
    ("ꞡ", "Ꞡ"); ("ꞣ", "Ꞣ"); ("ꞥ", "Ꞥ"); ("ꞧ", "Ꞧ"); ("ꞩ", "Ꞩ"); ("ꞵ", "Ꞵ");
    ("ꞷ", "Ꞷ"); ("ꞹ", "Ꞹ"); ("ꞻ", "Ꞻ"); ("ꞽ", "Ꞽ"); ("ꞿ", "Ꞿ"); ("ꟁ", "Ꟁ");
    ("ꟃ", "Ꟃ"); ("ꟈ", "Ꟈ"); ("ꟊ", "Ꟊ"); ("ꟑ", "Ꟑ"); ("ꟗ", "Ꟗ"); ("ꟙ", "Ꟙ");
    ("ꟶ", "Ꟶ"); ("ꭓ", "Ꭓ"); ("ꭰ", "Ꭰ"); ("ꭱ", "Ꭱ"); ("ꭲ", "Ꭲ"); ("ꭳ", "Ꭳ");
    ("ꭴ", "Ꭴ"); ("ꭵ", "Ꭵ"); ("ꭶ", "Ꭶ"); ("ꭷ", "Ꭷ"); ("ꭸ", "Ꭸ"); ("ꭹ", "Ꭹ");
    ("ꭺ", "Ꭺ"); ("ꭻ", "Ꭻ"); ("ꭼ", "Ꭼ"); ("ꭽ", "Ꭽ"); ("ꭾ", "Ꭾ"); ("ꭿ", "Ꭿ");
    ("ꮀ", "Ꮀ"); ("ꮁ", "Ꮁ"); ("ꮂ", "Ꮂ"); ("ꮃ", "Ꮃ"); ("ꮄ", "Ꮄ"); ("ꮅ", "Ꮅ");
    ("ꮆ", "Ꮆ"); ("ꮇ", "Ꮇ"); ("ꮈ", "Ꮈ"); ("ꮉ", "Ꮉ"); ("ꮊ", "Ꮊ"); ("ꮋ", "Ꮋ");
    ("ꮌ", "Ꮌ"); ("ꮍ", "Ꮍ"); ("ꮎ", "Ꮎ"); ("ꮏ", "Ꮏ"); ("ꮐ", "Ꮐ"); ("ꮑ", "Ꮑ");
    ("ꮒ", "Ꮒ"); ("ꮓ", "Ꮓ"); ("ꮔ", "Ꮔ"); ("ꮕ", "Ꮕ"); ("ꮖ", "Ꮖ"); ("ꮗ", "Ꮗ");
    ("ꮘ", "Ꮘ"); ("ꮙ", "Ꮙ"); ("ꮚ", "Ꮚ"); ("ꮛ", "Ꮛ"); ("ꮜ", "Ꮜ"); ("ꮝ", "Ꮝ");
    ("ꮞ", "Ꮞ"); ("ꮟ", "Ꮟ"); ("ꮠ", "Ꮠ"); ("ꮡ", "Ꮡ"); ("ꮢ", "Ꮢ"); ("ꮣ", "Ꮣ");
    ("ꮤ", "Ꮤ"); ("ꮥ", "Ꮥ"); ("ꮦ", "Ꮦ"); ("ꮧ", "Ꮧ"); ("ꮨ", "Ꮨ"); ("ꮩ", "Ꮩ");
    ("ꮪ", "Ꮪ"); ("ꮫ", "Ꮫ"); ("ꮬ", "Ꮬ"); ("ꮭ", "Ꮭ"); ("ꮮ", "Ꮮ"); ("ꮯ", "Ꮯ");
    ("ꮰ", "Ꮰ"); ("ꮱ", "Ꮱ"); ("ꮲ", "Ꮲ"); ("ꮳ", "Ꮳ"); ("ꮴ", "Ꮴ"); ("ꮵ", "Ꮵ");
    ("ꮶ", "Ꮶ"); ("ꮷ", "Ꮷ"); ("ꮸ", "Ꮸ"); ("ꮹ", "Ꮹ"); ("ꮺ", "Ꮺ"); ("ꮻ", "Ꮻ");
    ("ꮼ", "Ꮼ"); ("ꮽ", "Ꮽ"); ("ꮾ", "Ꮾ"); ("ꮿ", "Ꮿ"); ("ﬀ", "FF"); ("ﬁ", "FI");
    ("ﬂ", "FL"); ("ﬃ", "FFI"); ("ﬄ", "FFL"); ("ﬅ", "ST"); ("ﬆ", "ST");
    ("ﬓ", "ՄՆ"); ("ﬔ", "ՄԵ"); ("ﬕ", "ՄԻ"); ("ﬖ", "ՎՆ"); ("ﬗ", "ՄԽ");
    ("ａ", "Ａ"); ("ｂ", "Ｂ"); ("ｃ", "Ｃ"); ("ｄ", "Ｄ"); ("ｅ", "Ｅ"); ("ｆ", "Ｆ");
    ("ｇ", "Ｇ"); ("ｈ", "Ｈ"); ("ｉ", "Ｉ"); ("ｊ", "Ｊ"); ("ｋ", "Ｋ"); ("ｌ", "Ｌ");
    ("ｍ", "Ｍ"); ("ｎ", "Ｎ"); ("ｏ", "Ｏ"); ("ｐ", "Ｐ"); ("ｑ", "Ｑ"); ("ｒ", "Ｒ");
    ("ｓ", "Ｓ"); ("ｔ", "Ｔ"); ("ｕ", "Ｕ"); ("ｖ", "Ｖ"); ("ｗ", "Ｗ"); ("ｘ", "Ｘ");
    ("ｙ", "Ｙ"); ("ｚ", "Ｚ"); ("𐐨", "𐐀"); ("𐐩", "𐐁"); ("𐐪", "𐐂"); ("𐐫", "𐐃");
    ("𐐬", "𐐄"); ("𐐭", "𐐅"); ("𐐮", "𐐆"); ("𐐯", "𐐇"); ("𐐰", "𐐈"); ("𐐱", "𐐉");
    ("𐐲", "𐐊"); ("𐐳", "𐐋"); ("𐐴", "𐐌"); ("𐐵", "𐐍"); ("𐐶", "𐐎"); ("𐐷", "𐐏");
    ("𐐸", "𐐐"); ("𐐹", "𐐑"); ("𐐺", "𐐒"); ("𐐻", "𐐓"); ("𐐼", "𐐔"); ("𐐽", "𐐕");
    ("𐐾", "𐐖"); ("𐐿", "𐐗"); ("𐑀", "𐐘"); ("𐑁", "𐐙"); ("𐑂", "𐐚"); ("𐑃", "𐐛");
    ("𐑄", "𐐜"); ("𐑅", "𐐝"); ("𐑆", "𐐞"); ("𐑇", "𐐟"); ("𐑈", "𐐠"); ("𐑉", "𐐡");
    ("𐑊", "𐐢"); ("𐑋", "𐐣"); ("𐑌", "𐐤"); ("𐑍", "𐐥"); ("𐑎", "𐐦"); ("𐑏", "𐐧");
    ("𐓘", "𐒰"); ("𐓙", "𐒱"); ("𐓚", "𐒲"); ("𐓛", "𐒳"); ("𐓜", "𐒴"); ("𐓝", "𐒵");
    ("𐓞", "𐒶"); ("𐓟", "𐒷"); ("𐓠", "𐒸"); ("𐓡", "𐒹"); ("𐓢", "𐒺"); ("𐓣", "𐒻");
    ("𐓤", "𐒼"); ("𐓥", "𐒽"); ("𐓦", "𐒾"); ("𐓧", "𐒿"); ("𐓨", "𐓀"); ("𐓩", "𐓁");
    ("𐓪", "𐓂"); ("𐓫", "𐓃"); ("𐓬", "𐓄"); ("𐓭", "𐓅"); ("𐓮", "𐓆"); ("𐓯", "𐓇");
    ("𐓰", "𐓈"); ("𐓱", "𐓉"); ("𐓲", "𐓊"); ("𐓳", "𐓋"); ("𐓴", "𐓌"); ("𐓵", "𐓍");
    ("𐓶", "𐓎"); ("𐓷", "𐓏"); ("𐓸", "𐓐"); ("𐓹", "𐓑"); ("𐓺", "𐓒"); ("𐓻", "𐓓");
    ("𐖗", "𐕰"); ("𐖘", "𐕱"); ("𐖙", "𐕲"); ("𐖚", "𐕳"); ("𐖛", "𐕴"); ("𐖜", "𐕵");
    ("𐖝", "𐕶"); ("𐖞", "𐕷"); ("𐖟", "𐕸"); ("𐖠", "𐕹"); ("𐖡", "𐕺"); ("𐖣", "𐕼");
    ("𐖤", "𐕽"); ("𐖥", "𐕾"); ("𐖦", "𐕿"); ("𐖧", "𐖀"); ("𐖨", "𐖁"); ("𐖩", "𐖂");
    ("𐖪", "𐖃"); ("𐖫", "𐖄"); ("𐖬", "𐖅"); ("𐖭", "𐖆"); ("𐖮", "𐖇"); ("𐖯", "𐖈");
    ("𐖰", "𐖉"); ("𐖱", "𐖊"); ("𐖳", "𐖌"); ("𐖴", "𐖍"); ("𐖵", "𐖎"); ("𐖶", "𐖏");
    ("𐖷", "𐖐"); ("𐖸", "𐖑"); ("𐖹", "𐖒"); ("𐖻", "𐖔"); ("𐖼", "𐖕"); ("𐳀", "𐲀");
    ("𐳁", "𐲁"); ("𐳂", "𐲂"); ("𐳃", "𐲃"); ("𐳄", "𐲄"); ("𐳅", "𐲅"); ("𐳆", "𐲆");
    ("𐳇", "𐲇"); ("𐳈", "𐲈"); ("𐳉", "𐲉"); ("𐳊", "𐲊"); ("𐳋", "𐲋"); ("𐳌", "𐲌");
    ("𐳍", "𐲍"); ("𐳎", "𐲎"); ("𐳏", "𐲏"); ("𐳐", "𐲐"); ("𐳑", "𐲑"); ("𐳒", "𐲒");
    ("𐳓", "𐲓"); ("𐳔", "𐲔"); ("𐳕", "𐲕"); ("𐳖", "𐲖"); ("𐳗", "𐲗"); ("𐳘", "𐲘");
    ("𐳙", "𐲙"); ("𐳚", "𐲚"); ("𐳛", "𐲛"); ("𐳜", "𐲜"); ("𐳝", "𐲝"); ("𐳞", "𐲞");
    ("𐳟", "𐲟"); ("𐳠", "𐲠"); ("𐳡", "𐲡"); ("𐳢", "𐲢"); ("𐳣", "𐲣"); ("𐳤", "𐲤");
    ("𐳥", "𐲥"); ("𐳦", "𐲦"); ("𐳧", "𐲧"); ("𐳨", "𐲨"); ("𐳩", "𐲩"); ("𐳪", "𐲪");
    ("𐳫", "𐲫"); ("𐳬", "𐲬"); ("𐳭", "𐲭"); ("𐳮", "𐲮"); ("𐳯", "𐲯"); ("𐳰", "𐲰");
    ("𐳱", "𐲱"); ("𐳲", "𐲲"); ("𑣀", "𑢠"); ("𑣁", "𑢡"); ("𑣂", "𑢢"); ("𑣃", "𑢣");
    ("𑣄", "𑢤"); ("𑣅", "𑢥"); ("𑣆", "𑢦"); ("𑣇", "𑢧"); ("𑣈", "𑢨"); ("𑣉", "𑢩");
    ("𑣊", "𑢪"); ("𑣋", "𑢫"); ("𑣌", "𑢬"); ("𑣍", "𑢭"); ("𑣎", "𑢮"); ("𑣏", "𑢯");
    ("𑣐", "𑢰"); ("𑣑", "𑢱"); ("𑣒", "𑢲"); ("𑣓", "𑢳"); ("𑣔", "𑢴"); ("𑣕", "𑢵");
    ("𑣖", "𑢶"); ("𑣗", "𑢷"); ("𑣘", "𑢸"); ("𑣙", "𑢹"); ("𑣚", "𑢺"); ("𑣛", "𑢻");
    ("𑣜", "𑢼"); ("𑣝", "𑢽"); ("𑣞", "𑢾"); ("𑣟", "𑢿"); ("𖹠", "𖹀"); ("𖹡", "𖹁");
    ("𖹢", "𖹂"); ("𖹣", "𖹃"); ("𖹤", "𖹄"); ("𖹥", "𖹅"); ("𖹦", "𖹆"); ("𖹧", "𖹇");
    ("𖹨", "𖹈"); ("𖹩", "𖹉"); ("𖹪", "𖹊"); ("𖹫", "𖹋"); ("𖹬", "𖹌"); ("𖹭", "𖹍");
    ("𖹮", "𖹎"); ("𖹯", "𖹏"); ("𖹰", "𖹐"); ("𖹱", "𖹑"); ("𖹲", "𖹒"); ("𖹳", "𖹓");
    ("𖹴", "𖹔"); ("𖹵", "𖹕"); ("𖹶", "𖹖"); ("𖹷", "𖹗"); ("𖹸", "𖹘"); ("𖹹", "𖹙");
    ("𖹺", "𖹚"); ("𖹻", "𖹛"); ("𖹼", "𖹜"); ("𖹽", "𖹝"); ("𖹾", "𖹞"); ("𖹿", "𖹟");
    ("𞤢", "𞤀"); ("𞤣", "𞤁"); ("𞤤", "𞤂"); ("𞤥", "𞤃"); ("𞤦", "𞤄"); ("𞤧", "𞤅");
    ("𞤨", "𞤆"); ("𞤩", "𞤇"); ("𞤪", "𞤈"); ("𞤫", "𞤉"); ("𞤬", "𞤊"); ("𞤭", "𞤋");
    ("𞤮", "𞤌"); ("𞤯", "𞤍"); ("𞤰", "𞤎"); ("𞤱", "𞤏"); ("𞤲", "𞤐"); ("𞤳", "𞤑");
    ("𞤴", "𞤒"); ("𞤵", "𞤓"); ("𞤶", "𞤔"); ("𞤷", "𞤕"); ("𞤸", "𞤖"); ("𞤹", "𞤗");
    ("𞤺", "𞤘"); ("𞤻", "𞤙"); ("𞤼", "𞤚"); ("𞤽", "𞤛"); ("𞤾", "𞤜"); ("𞤿", "𞤝");
    ("𞥀", "𞤞"); ("𞥁", "𞤟"); ("𞥂", "𞤠"); ("𞥃", "𞤡") ].

Definition upper_special (c : string) : string :=
  match List.find (fun entry => String.eqb entry.1 c) upper_table with
  | Some entry => entry.2
  | None => c
  end.

(** [s.upper()]: every code point is replaced by its upper case, whatever
    surrounds it.  A last code point that is cut short is kept. *)
Fixpoint upper (s : string) : string :=
  match s with
  | EmptyString => EmptyString
  | String b0 s0 =>
      match utf8_width b0, s0 with
      | W1, _ => String (upper_char b0) (upper s0)
      | W2, String b1 s1 =>
          upper_special (String b0 (String b1 EmptyString)) +:+ upper s1
      | W3, String b1 (String b2 s2) =>
          upper_special (String b0 (String b1 (String b2 EmptyString))) +:+ upper s2
      | W4, String b1 (String b2 (String b3 s3)) =>
          upper_special (String b0 (String b1 (String b2 (String b3 EmptyString))))
          +:+ upper s3
      | _, _ => s
      end
  end.

(** All of an upper-cased text is whole code points that [upper] keeps. *)
Fixpoint fixed (r : string) : bool :=
  match r with
  | EmptyString => true
  | String b0 r0 =>
      match utf8_width b0, r0 with
      | W1, _ => Ascii.eqb (upper_char b0) b0 && fixed r0
      | W2, String b1 r1 =>
          let c := String b0 (String b1 EmptyString) in
          String.eqb (upper_special c) c && fixed r1
      | W3, String b1 (String b2 r2) =>
          let c := String b0 (String b1 (String b2 EmptyString)) in
          String.eqb (upper_special c) c && fixed r2
      | W4, String b1 (String b2 (String b3 r3)) =>
          let c := String b0 (String b1 (String b2 (String b3 EmptyString))) in
          String.eqb (upper_special c) c && fixed r3
      | _, _ => false
      end
  end.

(** [data[key]] with a [str] key: a lookup in a dict, [KeyError] when the
    key is absent; every other JSON value rejects a [str] subscript with a
    [TypeError]. *)
Definition getitem (data : pyval) (key : string) : outcome pyval :=
  match data with
  | PyDict d =>
      match d !! key with
      | Some v => Returns v
      | None => Raises (KeyError key)
      end
  | v => Raises (TypeError (type_name v))
  end.

(** [len(v)]: defined on lists, strings (their code points) and dicts. *)
Definition len (v : pyval) : outcome Z :=
  match v with
  | PyList l => Returns (Z.of_nat (List.length l))
  | PyStr s => Returns (Z.of_nat (str_len s))
  | PyDict d => Returns (Z.of_nat (size d))
  | v => Raises (TypeError (type_name v))
  end.

(** [v.json()] on a parsed JSON value: none of [dict], [list], [str], [int],
    [float], [bool] and [NoneType] has an attribute [json]. *)
Definition getattr_json (v : pyval) : outcome pyval :=
  Raises (AttributeError (type_name v) "json").

(** ** The transport *)

(** A [requests.Response]: all the client uses is what [response.json()]
    evaluates to, the parsed body or the decoding error it raises. *)
Record Response : Type := { json : outcome pyval }.

(** [requests.get(url)] against the outside world: it either raises or
    returns a response, and may change the world (a server that counts
    requests, a mock that plays a script).  What it raises is an instance
    of [Exception], as everything [requests] and the JSON decoder raise;
    interrupts of the interpreter ([KeyboardInterrupt], [SystemExit]) are
    outside the model. *)
Class Transport : Type := {
  World : Type;
  http_get : string -> World -> (pyexn + Response) * World
}.

(** ** The client object *)

(** An instance holds one attribute, [base_url].  [obj_repr] is
    [repr(self)], the default [<module.FinancialModelingPrep object at 0x...>]
    of the instance; it is fixed for the lifetime of the object. *)
Record FinancialModelingPrep : Type := {
  base_url : string;
  obj_repr : string
}.

Definition __init__ (obj_repr : string) : FinancialModelingPrep :=
  {| base_url := "financialmodelingprep.com"; obj_repr := obj_repr |}.

(** Formatting the attribute [self.name] of a method that is not called:
    [f"{self.name}"] is [str] of the bound method object. *)
Definition bound_method (self : FinancialModelingPrep) (name : string) : string :=
  "<bound method FinancialModelingPrep." +:+ name +:+ " of " +:+ obj_repr self +:+ ">".

Section Client.
Context `{Transport}.

(** The state a call runs in: the client object, the outside world, and
    the URLs given to [requests.get] so far, oldest first. *)
Record state : Type := {
  client : FinancialModelingPrep;
  world : World;
  requested : list string
}.

Definition py (A : Type) : Type := state -> outcome A * state.

#[export] Instance py_ret : MRet py := fun A a st => (Returns a, st).
#[export] Instance py_bind : MBind py := fun A B f m st =>
  match m st with
  | (Returns a, st') => f a st'
  | (Raises e, st') => (Raises e, st')
  end.

Definition raise {A} (e : pyexn) : py A := fun st => (Raises e, st).

Definition lift {A} (o : outcome A) : py A := fun st => (o, st).

(** [try: body except Exception as e: handler e] *)
Definition try_except {A} (body : py A) (handler : pyexn -> py A) : py A :=
  fun st =>
    match body st with
    | (Returns a, st') => (Returns a, st')
    | (Raises e, st') => handler e st'
    end.

(** [self]: the methods read the instance from the state; none of them
    assigns to an attribute. *)
Definition this : py FinancialModelingPrep := fun st => (Returns (client st), st).

(** [requests.get(url)] *)
Definition requests_get (url : string) : py Response := fun st =>
  let '(r, w) := http_get url (world st) in
  let st' := {| client := client st; world := w;
                requested := requested st ++ [url] |} in
  match r with
  | inl e => (Raises e, st')
  | inr response => (Returns response, st')
  end.

(** [if err:] on the second component of what [_call_api] returns: [None]
    is false, an exception object is true. *)
Definition truthy (err : option pyexn) : bool :=
  match err with
  | None => false
  | Some _ => true
  end.

(** ** Methods of [FinancialModelingPrep] *)

Definition _version (self : FinancialModelingPrep) : string :=
  base_url self +:+ "/api/v3/".

(** [self._version + "/financials/"]: the left operand is the bound method,
    not its result, and a method cannot be added to a [str]. *)
Definition _financials (self : FinancialModelingPrep) : outcome string :=
  Raises (TypeError "method").

Definition _call_api (url : string) : py (pyval * option pyexn) :=
  try_except
    (response ← requests_get url;
     body ← lift (json response);
     mret (body, None))
    (fun e => mret (PyNone, Some e)).

Definition get_quotes (symbol : string) : py pyval :=
  self ← this;
  let url := bound_method self "_version" +:+ "quote/" +:+ upper symbol in
  '(quote_response, err) ← _call_api url;
  if truthy err then
    raise (Exception ("Failed to fetch quote data for ticker symbol " +:+ symbol +:+ "."))
  else
    lift (getattr_json quote_response).

Definition _get_income_statement (symbol : string) : py (pyval * option pyexn) :=
  self ← this;
  let url := bound_method self "_financials" +:+ "income-statement/" +:+ upper symbol in
  _call_api url.

Definition _get_balance_sheet (symbol : string) : py (pyval * option pyexn) :=
  self ← this;
  let url := bound_method self "_financials" +:+ "balance-sheet-statement/" +:+ upper symbol in
  _call_api url.

Definition _get_cash_flow_statement (symbol : string) : py (pyval * option pyexn) :=
  self ← this;
  let url := bound_method self "_financials" +:+ "cash-flow-statement/" +:+ upper symbol in
  _call_api url.

(** The local function of [get_financials]. *)
Definition _has_more_than_minimum (minimum_years : Z) (data : pyval) : outcome bool :=
  financials ← getitem data "financials";
  n ← len financials;
  mret (n >=? minimum_years).

Definition get_financials (symbol : string) (minimum_years : Z) : py pyval :=
  let financials : gmap string pyval := ∅ in
  '(income_statement_response, income_err) ← _get_income_statement symbol;
  if truthy income_err then
    raise (Exception ("Failed to fetch income statement for ticker symbol " +:+ symbol +:+ "."))
  else
  enough ← lift (_has_more_than_minimum minimum_years income_statement_response);
  if negb enough then
    raise (Exception ("Not enough data found in the income statement for ticker symbol " +:+ symbol +:+ "."))
  else
  let financials := <["income_statement" := income_statement_response]> financials in
  '(balance_sheet_response, balance_err) ← _get_balance_sheet symbol;
  if truthy balance_err then
    raise (Exception ("Failed to fetch balance sheet for ticker symbol " +:+ symbol))
  else
  enough ← lift (_has_more_than_minimum minimum_years balance_sheet_response);
  if negb enough then
    raise (Exception ("Not enough data found in the balance sheet for ticker symbol " +:+ symbol +:+ "."))
  else
  let financials := <["balance_sheet" := balance_sheet_response]> financials in
  '(cash_flow_statement_response, cash_flow_err) ← _get_cash_flow_statement symbol;
  if truthy cash_flow_err then
    raise (Exception ("Failed to fetch cash flow statement for ticker symbol " +:+ symbol))
  else
  enough ← lift (_has_more_than_minimum minimum_years cash_flow_statement_response);
  if negb enough then
    raise (Exception ("Not enough data found in the cash flow statement for ticker symbol " +:+ symbol +:+ "."))
  else
  let financials := <["cash_flow_statement" := cash_flow_statement_response]> financials in
  mret (PyDict financials).

End Client.

(** ** Vocabulary of the specification *)

(** The client raises plain [Exception]s; the two kinds of error of its
    documentation are told apart by how the message starts. *)
Definition is_FetchError (e : pyexn) : bool :=
  match e with
  | Exception msg => String.prefix "Failed to fetch " msg
  | _ => false
  end.

Definition is_InsufficientDataError (e : pyexn) : bool :=
  match e with
  | Exception msg => String.prefix "Not enough data found in " msg
  | _ => false
  end.

(** The message of [e] contains [part]. *)
Definition names (part : string) (e : pyexn) : Prop :=
  match e with
  | Exception msg => exists pre post, msg = pre +:+ part +:+ post
  | _ => False
  end.

(** [o1] and [o2] are the same outcome, or the same [Exception] whose
    message echoes [s1] in one and [s2] in the other. *)
Definition same_up_to_echo {A} (s1 s2 : string) (o1 o2 : outcome A) : Prop :=
  o1 = o2 \/
  exists pre post,
    o1 = Raises (Exception (pre +:+ s1 +:+ post)) /\
    o2 = Raises (Exception (pre +:+ s2 +:+ post)).

Inductive statement : Type := IncomeStatement | BalanceSheet | CashFlowStatement.

(** How the error messages call a statement. *)
Definition statement_name (stmt : statement) : string :=
  match stmt with
  | IncomeStatement => "income statement"
  | BalanceSheet => "balance sheet"
  | CashFlowStatement => "cash flow statement"
  end.

(** The URL requested for a statement, and for the quote. *)
Definition statement_url (self : FinancialModelingPrep) (stmt : statement)
    (symbol : string) : string :=
  bound_method self "_financials" +:+
  match stmt with
  | IncomeStatement => "income-statement/"
  | BalanceSheet => "balance-sheet-statement/"
  | CashFlowStatement => "cash-flow-statement/"
  end +:+ upper symbol.

Definition quote_url (self : FinancialModelingPrep) (symbol : string) : string :=
  bound_method self "_version" +:+ "quote/" +:+ upper symbol.

(** The messages of the two kinds of error, per statement. *)
Definition fetch_failure_message (stmt : statement) (symbol : string) : string :=
  match stmt with
  | IncomeStatement => "Failed to fetch income statement for ticker symbol " +:+ symbol +:+ "."
  | BalanceSheet => "Failed to fetch balance sheet for ticker symbol " +:+ symbol
  | CashFlowStatement => "Failed to fetch cash flow statement for ticker symbol " +:+ symbol
  end.

Definition shortage_message (stmt : statement) (symbol : string) : string :=
  "Not enough data found in the " +:+ statement_name stmt +:+
  " for ticker symbol " +:+ symbol +:+ ".".

(** The order in which the statements are dealt with. *)
Definition rank (stmt : statement) : nat :=
  match stmt with
  | IncomeStatement => 1
  | BalanceSheet => 2
  | CashFlowStatement => 3
  end.

Definition earlier (a b : statement) : Prop := (rank a < rank b)%nat.

(** A bundle whose ["financials"] entry has a length, at least
    [minimum_years], respectively less than [minimum_years]. *)
Definition holds_periods (minimum_years : Z) (data : pyval) : Prop :=
  exists financials n,
    getitem data "financials" = Returns financials /\
    len financials = Returns n /\ minimum_years <= n.

Definition lacks_periods (minimum_years : Z) (data : pyval) : Prop :=
  exists financials n,
    getitem data "financials" = Returns financials /\
    len financials = Returns n /\ n < minimum_years.

(** What a fetch returned: no error and enough periods, respectively no
    error and too few. *)
Definition passes (minimum_years : Z) (r : pyval * option pyexn) : Prop :=
  r.2 = None /\ holds_periods minimum_years r.1.

Definition falls_short (minimum_years : Z) (r : pyval * option pyexn) : Prop :=
  r.2 = None /\ lacks_periods minimum_years r.1.

(** What a fetch hands to its caller, from what the transport did: the
    parsed body and no error, or [None] and the exception. *)
Definition api_result (r : pyexn + Response) : pyval * option pyexn :=
  match r with
  | inl e => (PyNone, Some e)
  | inr response =>
      match json response with
      | Returns body => (body, None)
      | Raises e => (PyNone, Some e)
      end
  end.

(** How one statement fares: its fetch failed, or it was fetched and holds
    enough periods ([Pass]), too few ([TooShort]), or the check itself
    raised ([Broken]). *)
Inductive verdict : Type :=
| Pass
| FetchFailed
| TooShort
| Broken (e : pyexn).

Section Vocabulary.
Context `{Transport}.

Definition judge (minimum_years : Z) (r : pyval * option pyexn) : verdict :=
  match r.2 with
  | Some _ => FetchFailed
  | None =>
      match _has_more_than_minimum minimum_years r.1 with
      | Returns true => Pass
      | Returns false => TooShort
      | Raises e => Broken e
      end
  end.

(** The state after one more [requests.get(url)]. *)
Definition after (url : string) (st : state) : state :=
  {| client := client st;
     world := (http_get url (world st)).2;
     requested := requested st ++ [url] |}.

(** One fetch: what the caller gets and the state it leaves. *)
Definition fetch (url : string) (st : state) : (pyval * option pyexn) * state :=
  (api_result (http_get url (world st)).1, after url st).

(** The fetch of a statement when the statements before it, in the order
    income statement, balance sheet, cash flow statement, were fetched. *)
Definition state_before (stmt : statement) (symbol : string) (st : state) : state :=
  match stmt with
  | IncomeStatement => st
  | BalanceSheet =>
      after (statement_url (client st) IncomeStatement symbol) st
  | CashFlowStatement =>
      after (statement_url (client st) BalanceSheet symbol)
        (after (statement_url (client st) IncomeStatement symbol) st)
  end.

Definition reply (stmt : statement) (symbol : string) (st : state) : pyval * option pyexn :=
  (fetch (statement_url (client st) stmt symbol) (state_before stmt symbol st)).1.

(** The first statement, in that order, that does not pass, with its
    verdict; [None] when all three pass. *)
Definition first_failure (symbol : string) (minimum_years : Z) (st : state)
    : option (statement * verdict) :=
  match judge minimum_years (reply IncomeStatement symbol st) with
  | Pass =>
      match judge minimum_years (reply BalanceSheet symbol st) with
      | Pass =>
          match judge minimum_years (reply CashFlowStatement symbol st) with
          | Pass => None
          | v => Some (CashFlowStatement, v)
          end
      | v => Some (BalanceSheet, v)
      end
  | v => Some (IncomeStatement, v)
  end.

Definition state_after (stmt : statement) (symbol : string) (st : state) : state :=
  after (statement_url (client st) stmt symbol) (state_before stmt symbol st).

(** The mapping [get_financials] builds from three bundles. *)
Definition financials_of (income balance cash_flow : pyval) : pyval :=
  PyDict (<["cash_flow_statement" := cash_flow]>
            (<["balance_sheet" := balance]>
               (<["income_statement" := income]> ∅))).

(** The exception [get_financials] raises for a statement that fails. *)
Definition failure (stmt : statement) (v : verdict) (symbol : string) : pyexn :=
  match v with
  | FetchFailed | Pass => Exception (fetch_failure_message stmt symbol)
  | TooShort => Exception (shortage_message stmt symbol)
  | Broken e => e
  end.

(** The first statement, in order, whose fetch returns no error. *)
Definition first_fetched (symbol : string) (st : state) : option statement :=
  List.find (fun stmt => negb (truthy (reply stmt symbol st).2))
    [IncomeStatement; BalanceSheet; CashFlowStatement].

(** A reading of the documentation that the code does not follow:
    [get_financials] raises for lack of data exactly when the first
    statement that is fetched without error has too few periods. *)
Definition insufficient_iff_first_fetched_short (symbol : string) (minimum_years : Z)
    (st : state) : Prop :=
  (exists e, (get_financials symbol minimum_years st).1 = Raises e /\
     is_InsufficientDataError e = true) <->
  (exists stmt, first_fetched symbol st = Some stmt /\
     falls_short minimum_years (reply stmt symbol st)).

(** The transport answers by the URL alone. *)
Definition deterministic : Prop :=
  forall url w1 w2, (http_get url w1).1 = (http_get url w2).1.

End Vocabulary.

(** ** Transports and data to run the client on *)

(** A transport that plays a script: each request gets the next entry,
    whatever its URL; when the script is over the connection fails. *)
Definition scripted : Transport := {|
  World := list (pyexn + Response);
  http_get := fun _ w =>
    match w with
    | [] => (inl (TransportError "ConnectionError" "connection refused"), [])
    | r :: w' => (r, w')
    end
|}.

Definition ok (body : pyval) : pyexn + Response := inr {| json := Returns body |}.

Definition undecodable : pyexn + Response :=
  inr {| json := Raises (TransportError "JSONDecodeError" "Expecting value") |}.

Definition timed_out : pyexn + Response :=
  inl (TransportError "ConnectTimeout" "timed out").

Definition period (date : string) : pyval :=
  PyDict {[ "date" := PyStr date ]}.

Definition bundle (symbol : string) (periods : list pyval) : pyval :=
  PyDict (<["financials" := PyList periods]> {[ "symbol" := PyStr symbol ]}).

Definition three_periods : list pyval :=
  [period "2019-06-30"; period "2018-06-30"; period "2017-06-30"].

Definition two_periods : list pyval :=
  [period "2019-06-30"; period "2018-06-30"].

(** [{"symbol": "AAPL", "price": 150.0}] *)
Definition aapl_quote : pyval :=
  PyDict (<["price" := PyFloat 0x4062C00000000000]> {[ "symbol" := PyStr "AAPL" ]}).

Definition a_client : FinancialModelingPrep :=
  __init__ "<financial_modeling_prep.financial_modeling_prep.FinancialModelingPrep object at 0x7f3a5c1d2e80>".

(** A state in which nothing was requested yet. *)
Definition fresh `{Transport} (w : World) : state :=
  {| client := a_client; world := w; requested := [] |}.

(** Scripts: three full statements of MSFT; the third with two periods
    only; three statements of XYZ without any period; an error body for
    the first statement. *)
Definition msft_full : list (pyexn + Response) :=
  [ok (bundle "MSFT" three_periods); ok (bundle "MSFT" three_periods);
   ok (bundle "MSFT" three_periods)].

Definition msft_short_cash_flow : list (pyexn + Response) :=
  [ok (bundle "MSFT" three_periods); ok (bundle "MSFT" three_periods);
   ok (bundle "MSFT" two_periods)].

Definition xyz_empty : list (pyexn + Response) :=
  [ok (bundle "XYZ" []); ok (bundle "XYZ" []); ok (bundle "XYZ" [])].

Definition error_body : pyval :=
  PyDict {[ "Error" := PyStr "Not found! Please check the symbol." ]}.

(** A server that answers by the URL alone and counts the requests it
    got: it knows the quote of AAPL and three periods of each statement
    of MSFT, as requested by [a_client]. *)
Definition counting_server : Transport := {|
  World := nat;
  http_get := fun url n =>
    (if String.eqb url (quote_url a_client "AAPL") then ok aapl_quote
     else if String.eqb url (statement_url a_client IncomeStatement "MSFT")
       || String.eqb url (statement_url a_client BalanceSheet "MSFT")
       || String.eqb url (statement_url a_client CashFlowStatement "MSFT")
     then ok (bundle "MSFT" three_periods)
     else inl (TransportError "HTTPError" "404 Not Found"),
     S n)
|}.

(** ** Basic facts *)

Section Facts.
Context `{Transport}.

Lemma upper_char_idemp (c : ascii) : upper_char (upper_char c) = upper_char c.
Proof. by destruct c as [[] [] [] [] [] [] [] []]. Qed.

Lemma utf8_width_upper_char (c : ascii) : utf8_width (upper_char c) = utf8_width c.
Proof. by destruct c as [[] [] [] [] [] [] [] []]. Qed.

Lemma append_cons (b : ascii) (r t : string) : String b r +:+ t = String b (r +:+ t).
Proof. reflexivity. Qed.

Lemma upper_cons (b0 : ascii) (s0 : string) :
  upper (String b0 s0) =
  match utf8_width b0, s0 with
  | W1, _ => String (upper_char b0) (upper s0)
  | W2, String b1 s1 =>
      upper_special (String b0 (String b1 EmptyString)) +:+ upper s1
  | W3, String b1 (String b2 s2) =>
      upper_special (String b0 (String b1 (String b2 EmptyString))) +:+ upper s2
  | W4, String b1 (String b2 (String b3 s3)) =>
      upper_special (String b0 (String b1 (String b2 (String b3 EmptyString))))
      +:+ upper s3
  | _, _ => String b0 s0
  end.
Proof. reflexivity. Qed.

(** [upper] applies every entry of the table to its code point. *)
Lemma upper_table_applied :
  forallb (fun entry => String.eqb (upper entry.1) entry.2) upper_table = true.
Proof. vm_compute. reflexivity. Qed.

Example upper_ascii : upper "brk.b" = "BRK.B".
Proof. reflexivity. Qed.

Example upper_sharp_s : upper "straße" = "STRASSE".
Proof. reflexivity. Qed.

Example upper_ligature : upper "ﬁat-ǆ" = "FIAT-Ǆ".
Proof. reflexivity. Qed.

Example len_code_points : len (PyStr "é€") = Returns 2.
Proof. reflexivity. Qed.

(** Every entry of the table gives whole code points that [upper] keeps. *)
Lemma upper_table_fixed : forallb (fun entry => fixed entry.2) upper_table = true.
Proof. vm_compute. reflexivity. Qed.

Lemma upper_special_cases (c : string) :
  upper_special c = c \/ fixed (upper_special c) = true.
Proof.
  unfold upper_special.
  destruct (List.find _ upper_table) as [entry |] eqn:Hfind; [right | by left].
  apply find_some in Hfind as [Hin _].
  pose proof upper_table_fixed as Hall. rewrite forallb_forall in Hall.
  by apply (Hall entry).
Qed.

Lemma fixed_upper_app (n : nat) (r t : string) :
  (String.length r <= n)%nat -> fixed r = true -> upper (r +:+ t) = r +:+ upper t.
Proof.
  revert r. induction n as [| n IH]; intros r Hlen Hfixed.
  { by destruct r; [| simpl in Hlen; lia]. }
  destruct r as [| b0 r0]; [done |].
  simpl in Hlen, Hfixed. rewrite append_cons, upper_cons.
  destruct (utf8_width b0).
  - apply andb_true_iff in Hfixed as [Hb%Ascii.eqb_eq Hrest].
    rewrite Hb, IH by (done || lia). done.
  - destruct r0 as [| b1 r1]; [done |].
    apply andb_true_iff in Hfixed as [Hc%String.eqb_eq Hrest].
    simpl in Hlen. rewrite !append_cons, Hc, IH by (done || lia). done.
  - destruct r0 as [| b1 [| b2 r2]]; [done | done |].
    apply andb_true_iff in Hfixed as [Hc%String.eqb_eq Hrest].
    simpl in Hlen. rewrite !append_cons, Hc, IH by (done || lia). done.
  - destruct r0 as [| b1 [| b2 [| b3 r3]]]; [done | done | done |].
    apply andb_true_iff in Hfixed as [Hc%String.eqb_eq Hrest].
    simpl in Hlen. rewrite !append_cons, Hc, IH by (done || lia). done.
Qed.

(** One code point of the text, upper-cased, followed by text that is
    upper-cased already. *)
Lemma upper_special_app (c rest : string) :
  (forall t, upper (c +:+ t) = upper_special c +:+ upper t) ->
  upper (upper rest) = upper rest ->
  upper (upper_special c +:+ upper rest) = upper_special c +:+ upper rest.
Proof.
  intros Hstep Hrest. destruct (upper_special_cases c) as [Hid | Hfixed].
  - rewrite Hid in *. by rewrite Hstep, Hrest.
  - by rewrite (fixed_upper_app _ _ _ (le_n _) Hfixed), Hrest.
Qed.

Lemma upper_idemp_upto (n : nat) (s : string) :
  (String.length s <= n)%nat -> upper (upper s) = upper s.
Proof.
  revert s. induction n as [| n IH]; intros s Hlen.
  { by destruct s; [| simpl in Hlen; lia]. }
  destruct s as [| b0 s0]; [done |].
  simpl in Hlen. rewrite (upper_cons b0 s0).
  destruct (utf8_width b0) eqn:Hwidth.
  - rewrite upper_cons, utf8_width_upper_char, Hwidth, upper_char_idemp.
    by rewrite IH by lia.
  - destruct s0 as [| b1 s1]; [by rewrite upper_cons, Hwidth |].
    simpl in Hlen. apply upper_special_app; [| apply IH; lia].
    intros t. by rewrite !append_cons, upper_cons, Hwidth.
  - destruct s0 as [| b1 [| b2 s2]]; [by rewrite upper_cons, Hwidth .. |].
    simpl in Hlen. apply upper_special_app; [| apply IH; lia].
    intros t. by rewrite !append_cons, upper_cons, Hwidth.
  - destruct s0 as [| b1 [| b2 [| b3 s3]]]; [by rewrite upper_cons, Hwidth .. |].
    simpl in Hlen. apply upper_special_app; [| apply IH; lia].
    intros t. by rewrite !append_cons, upper_cons, Hwidth.
Qed.

Lemma upper_idemp (s : string) : upper (upper s) = upper s.
Proof. by apply (upper_idemp_upto (String.length s)). Qed.

Lemma append_empty_r (s : string) : s +:+ EmptyString = s.
Proof.
  induction s as [| c s IH]; [done |].
  change (String c (s +:+ EmptyString) = String c s). by f_equal.
Qed.

Lemma has_more_than_minimum_returns (minimum_years : Z) (data : pyval) (b : bool) :
  _has_more_than_minimum minimum_years data = Returns b <->
  exists financials n,
    getitem data "financials" = Returns financials /\
    len financials = Returns n /\ b = (n >=? minimum_years).
Proof.
  unfold _has_more_than_minimum, mbind, outcome_bind, mret, outcome_ret.
  split.
  - destruct (getitem data "financials") as [financials |]; [| done].
    destruct (len financials) as [n |] eqn:Hlen; [| done].
    intros [= <-]. by exists financials, n.
  - intros (financials & n & -> & -> & ->). done.
Qed.

(** When the check raises, it is the subscript or [len] that does. *)
Lemma has_more_than_minimum_raises (minimum_years : Z) (data : pyval) (e : pyexn) :
  _has_more_than_minimum minimum_years data = Raises e ->
  (e = KeyError "financials" \/ exists type, e = TypeError type) /\
  is_FetchError e = false /\ is_InsufficientDataError e = false.
Proof.
  unfold _has_more_than_minimum, mbind, outcome_bind, mret, outcome_ret.
  destruct (getitem data "financials") as [financials |] eqn:Hget.
  - destruct (len financials) as [n |] eqn:Hlen; [done |].
    intros [= <-]. destruct financials; simplify_eq/=; eauto.
  - intros [= <-]. destruct data; simplify_eq/=; eauto.
    destruct (d !! "financials"); simplify_eq/=; eauto.
Qed.

Lemma judge_Pass (minimum_years : Z) (r : pyval * option pyexn) :
  judge minimum_years r = Pass <-> passes minimum_years r.
Proof.
  unfold judge, passes, holds_periods. destruct r as [data [e |]]; simpl.
  { split; [done | by intros [? _]]. }
  split.
  - destruct (_has_more_than_minimum minimum_years data) as [[|] |] eqn:Hc; try done.
    apply has_more_than_minimum_returns in Hc as (f & n & ? & ? & Hb).
    intros _. split; [done |]. exists f, n. repeat split; try done. lia.
  - intros [_ (f & n & Hf & Hn & Hle)].
    assert (_has_more_than_minimum minimum_years data = Returns true) as ->; [| done].
    apply has_more_than_minimum_returns. exists f, n. repeat split; try done. lia.
Qed.

Lemma judge_TooShort (minimum_years : Z) (r : pyval * option pyexn) :
  judge minimum_years r = TooShort <-> falls_short minimum_years r.
Proof.
  unfold judge, falls_short, lacks_periods. destruct r as [data [e |]]; simpl.
  { split; [done | by intros [? _]]. }
  split.
  - destruct (_has_more_than_minimum minimum_years data) as [[|] |] eqn:Hc; try done.
    apply has_more_than_minimum_returns in Hc as (f & n & ? & ? & Hb).
    intros _. split; [done |]. exists f, n. repeat split; try done. lia.
  - intros [_ (f & n & Hf & Hn & Hle)].
    assert (_has_more_than_minimum minimum_years data = Returns false) as ->; [| done].
    apply has_more_than_minimum_returns. exists f, n. repeat split; try done. lia.
Qed.

Lemma judge_FetchFailed (minimum_years : Z) (r : pyval * option pyexn) :
  judge minimum_years r = FetchFailed <-> r.2 <> None.
Proof.
  unfold judge. destruct r as [data [e |]]; simpl; [done |].
  destruct (_has_more_than_minimum minimum_years data) as [[|] |]; naive_solver.
Qed.

Lemma judge_Broken (minimum_years : Z) (r : pyval * option pyexn) (e : pyexn) :
  judge minimum_years r = Broken e ->
  r.2 = None /\ _has_more_than_minimum minimum_years r.1 = Raises e.
Proof.
  unfold judge. destruct r as [data [e' |]]; simpl; [done |].
  destruct (_has_more_than_minimum minimum_years data) as [[|] |]; naive_solver.
Qed.

(** The three verdicts behind [first_failure]. *)
Lemma first_failure_None (symbol : string) (minimum_years : Z) (st : state) :
  first_failure symbol minimum_years st = None <->
  forall stmt, judge minimum_years (reply stmt symbol st) = Pass.
Proof.
  unfold first_failure. split.
  - intros Hnone stmt.
    destruct (judge minimum_years (reply IncomeStatement symbol st)) eqn:H1; try done.
    destruct (judge minimum_years (reply BalanceSheet symbol st)) eqn:H2; try done.
    destruct (judge minimum_years (reply CashFlowStatement symbol st)) eqn:H3; try done.
    by destruct stmt.
  - intros Hall.
    by rewrite (Hall IncomeStatement), (Hall BalanceSheet), (Hall CashFlowStatement).
Qed.

Lemma first_failure_Some (symbol : string) (minimum_years : Z) (st : state)
    (stmt : statement) (v : verdict) :
  first_failure symbol minimum_years st = Some (stmt, v) <->
  judge minimum_years (reply stmt symbol st) = v /\ v <> Pass /\
  forall stmt', earlier stmt' stmt -> judge minimum_years (reply stmt' symbol st) = Pass.
Proof.
  unfold first_failure, earlier. split.
  - intros Hsome.
    destruct (judge minimum_years (reply IncomeStatement symbol st)) eqn:H1;
      [| simplify_eq; repeat split; try done; intros []; simpl; lia ..].
    destruct (judge minimum_years (reply BalanceSheet symbol st)) eqn:H2;
      [| simplify_eq; repeat split; try done; intros []; simpl; (done || lia) ..].
    destruct (judge minimum_years (reply CashFlowStatement symbol st)) eqn:H3;
      [done | simplify_eq; repeat split; try done; intros []; simpl; (done || lia) ..].
  - intros (Hv & Hne & Hbefore). destruct stmt.
    + rewrite Hv. by destruct v.
    + rewrite (Hbefore IncomeStatement) by (simpl; lia). rewrite Hv. by destruct v.
    + rewrite (Hbefore IncomeStatement) by (simpl; lia).
      rewrite (Hbefore BalanceSheet) by (simpl; lia). rewrite Hv. by destruct v.
Qed.

Lemma client_state_after (stmt : statement) (symbol : string) (st : state) :
  client (state_after stmt symbol st) = client st.
Proof. by destruct stmt. Qed.

Lemma call_api_fetch (url : string) (st : state) :
  _call_api url st = (Returns (fetch url st).1, (fetch url st).2).
Proof.
  unfold _call_api, try_except, fetch, after, requests_get, lift, mbind, py_bind,
    mret, py_ret.
  destruct (http_get url (world st)) as [[e | response] w]; simpl; [done |].
  destruct (json response); done.
Qed.

Lemma get_quotes_fetch (symbol : string) (st : state) :
  get_quotes symbol st =
  let r := fetch (quote_url (client st) symbol) st in
  (match r.1.2 with
   | Some _ =>
       Raises (Exception ("Failed to fetch quote data for ticker symbol " +:+ symbol +:+ "."))
   | None => getattr_json r.1.1
   end, r.2).
Proof.
  unfold get_quotes, this, mbind, py_bind. cbv beta iota zeta.
  rewrite call_api_fetch. fold (quote_url (client st) symbol).
  destruct (fetch _ st) as [[v [e |]] st']; done.
Qed.

Lemma get_income_statement_fetch (symbol : string) (st : state) :
  _get_income_statement symbol st =
  (Returns (fetch (statement_url (client st) IncomeStatement symbol) st).1,
   after (statement_url (client st) IncomeStatement symbol) st).
Proof. unfold _get_income_statement, this, mbind, py_bind. by rewrite call_api_fetch. Qed.

Lemma get_balance_sheet_fetch (symbol : string) (st : state) :
  _get_balance_sheet symbol st =
  (Returns (fetch (statement_url (client st) BalanceSheet symbol) st).1,
   after (statement_url (client st) BalanceSheet symbol) st).
Proof. unfold _get_balance_sheet, this, mbind, py_bind. by rewrite call_api_fetch. Qed.

Lemma get_cash_flow_statement_fetch (symbol : string) (st : state) :
  _get_cash_flow_statement symbol st =
  (Returns (fetch (statement_url (client st) CashFlowStatement symbol) st).1,
   after (statement_url (client st) CashFlowStatement symbol) st).
Proof. unfold _get_cash_flow_statement, this, mbind, py_bind. by rewrite call_api_fetch. Qed.

(** One block of [get_financials]: fetch, test the error, test the number
    of periods, go on. *)
Lemma statement_block {A} (getter : py (pyval * option pyexn)) (minimum_years : Z)
    (failed short : string) (k : pyval -> py A) (r : pyval * option pyexn)
    (st st1 : state) :
  getter st = (Returns r, st1) ->
  ('(response, err) ← getter;
   if truthy err then raise (Exception failed)
   else
     enough ← lift (_has_more_than_minimum minimum_years response);
     if negb enough then raise (Exception short) else k response) st =
  match judge minimum_years r with
  | Pass => k r.1 st1
  | FetchFailed => (Raises (Exception failed), st1)
  | TooShort => (Raises (Exception short), st1)
  | Broken e => (Raises e, st1)
  end.
Proof.
  intros Hget. unfold mbind at 1, py_bind at 1. rewrite Hget.
  destruct r as [response [e |]]; unfold judge; simpl; [done |].
  unfold mbind, py_bind, lift.
  destruct (_has_more_than_minimum minimum_years response) as [[|] | e]; done.
Qed.

Lemma get_financials_spec (symbol : string) (minimum_years : Z) (st : state) :
  get_financials symbol minimum_years st =
  match first_failure symbol minimum_years st with
  | None =>
      (Returns (financials_of (reply IncomeStatement symbol st).1
                  (reply BalanceSheet symbol st).1
                  (reply CashFlowStatement symbol st).1),
       state_after CashFlowStatement symbol st)
  | Some (stmt, v) => (Raises (failure stmt v symbol), state_after stmt symbol st)
  end.
Proof.
  unfold get_financials, first_failure.
  erewrite statement_block by apply get_income_statement_fetch.
  change (fetch _ st).1 with (reply IncomeStatement symbol st).
  destruct (judge minimum_years (reply IncomeStatement symbol st)); try done.
  erewrite statement_block by apply get_balance_sheet_fetch.
  change (fetch (statement_url _ BalanceSheet _) _).1
    with (reply BalanceSheet symbol st).
  destruct (judge minimum_years (reply BalanceSheet symbol st)); try done.
  erewrite statement_block by apply get_cash_flow_statement_fetch.
  change (fetch (statement_url _ CashFlowStatement _) _).1
    with (reply CashFlowStatement symbol st).
  destruct (judge minimum_years (reply CashFlowStatement symbol st)); done.
Qed.
End Facts.


(** ** Properties of the client *)

Section Properties.
Context `{Transport}.

(** C1: whenever [get_financials symbol minimum_years] returns, what it
    returns is a mapping with exactly the keys ["income_statement"],
    ["balance_sheet"] and ["cash_flow_statement"], bound to the three
    bundles that were fetched, in that order and without error, and each
    bundle has a ["financials"] entry of length at least [minimum_years].
    So a mapping that misses a statement is never returned. *)
Theorem get_financials_returns_complete (symbol : string) (minimum_years : Z)
    (st st' : state) (result : pyval) :
  get_financials symbol minimum_years st = (Returns result, st') ->
  exists (income balance cash_flow : pyval) (st1 st2 : state) (d : gmap string pyval),
    _get_income_statement symbol st = (Returns (income, None), st1) /\
    _get_balance_sheet symbol st1 = (Returns (balance, None), st2) /\
    _get_cash_flow_statement symbol st2 = (Returns (cash_flow, None), st') /\
    result = PyDict d /\
    dom d = {[ "income_statement"; "balance_sheet"; "cash_flow_statement" ]} /\
    d !! "income_statement" = Some income /\
    d !! "balance_sheet" = Some balance /\
    d !! "cash_flow_statement" = Some cash_flow /\
    holds_periods minimum_years income /\
    holds_periods minimum_years balance /\
    holds_periods minimum_years cash_flow.
Proof.
  intros Hrun. rewrite get_financials_spec in Hrun.
  destruct (first_failure symbol minimum_years st) as [[stmt v] |] eqn:Hfirst; [done |].
  injection Hrun as <- <-.
  pose proof (proj1 (first_failure_None _ _ _) Hfirst) as Hall.
  pose proof (proj1 (judge_Pass _ _) (Hall IncomeStatement)) as [Herr1 Hlen1].
  pose proof (proj1 (judge_Pass _ _) (Hall BalanceSheet)) as [Herr2 Hlen2].
  pose proof (proj1 (judge_Pass _ _) (Hall CashFlowStatement)) as [Herr3 Hlen3].
  exists (reply IncomeStatement symbol st).1, (reply BalanceSheet symbol st).1,
    (reply CashFlowStatement symbol st).1, (state_after IncomeStatement symbol st),
    (state_after BalanceSheet symbol st).
  eexists. split_and!; [| | | reflexivity | ..]; try done.
  - rewrite get_income_statement_fetch.
    change (fetch _ st).1 with (reply IncomeStatement symbol st).
    by destruct (reply IncomeStatement symbol st); simplify_eq/=.
  - rewrite get_balance_sheet_fetch.
    change (fetch _ _).1 with (reply BalanceSheet symbol st).
    by destruct (reply BalanceSheet symbol st); simplify_eq/=.
  - rewrite get_cash_flow_statement_fetch.
    change (fetch _ _).1 with (reply CashFlowStatement symbol st).
    by destruct (reply CashFlowStatement symbol st); simplify_eq/=.
Qed.

(** C2: [get_financials] requests the income statement, then the balance
    sheet, then the cash flow statement, and stops at the first statement
    that does not pass (its fetch fails, it has too few periods, or the
    check raises): the state it leaves is the one after that statement's
    request, so exactly the URLs up to it were requested and the world
    saw no later request. *)
Theorem get_financials_fetch_order (symbol : string) (minimum_years : Z) (st : state) :
  let income := statement_url (client st) IncomeStatement symbol in
  let balance := statement_url (client st) BalanceSheet symbol in
  let cash_flow := statement_url (client st) CashFlowStatement symbol in
  let st' := (get_financials symbol minimum_years st).2 in
  match first_failure symbol minimum_years st with
  | Some (IncomeStatement, v) =>
      v <> Pass /\ st' = after income st /\
      requested st' = (requested st ++ [income])%list
  | Some (BalanceSheet, v) =>
      v <> Pass /\ st' = after balance (after income st) /\
      requested st' = (requested st ++ [income; balance])%list
  | Some (CashFlowStatement, v) =>
      v <> Pass /\ st' = after cash_flow (after balance (after income st)) /\
      requested st' = (requested st ++ [income; balance; cash_flow])%list
  | None =>
      st' = after cash_flow (after balance (after income st)) /\
      requested st' = (requested st ++ [income; balance; cash_flow])%list
  end.
Proof.
  intros income balance cash_flow st'. subst st'.
  rewrite get_financials_spec.
  destruct (first_failure symbol minimum_years st) as [[stmt v] |] eqn:Hfirst.
  - apply first_failure_Some in Hfirst as (_ & Hne & _).
    destruct stmt; simpl; split_and!; try done; by rewrite <- ?(assoc_L (++)).
  - simpl; split_and!; try done; by rewrite <- ?(assoc_L (++)).
Qed.

(** On a successful fetch [get_quotes] applies [.json()] to the value that
    [_call_api] already parsed, so it never returns. *)
Lemma get_quotes_never_returns (symbol : string) (st : state) (v : pyval) :
  (get_quotes symbol st).1 <> Returns v.
Proof.
  rewrite get_quotes_fetch. simpl.
  by destruct (api_result _).2.
Qed.

Lemma get_quotes_parsed (symbol : string) (st st' : state) (body : pyval) :
  _call_api (quote_url (client st) symbol) st = (Returns (body, None), st') ->
  get_quotes symbol st = (Raises (AttributeError (type_name body) "json"), st').
Proof.
  rewrite call_api_fetch, get_quotes_fetch. cbv zeta.
  destruct (fetch _ st) as [[v err] st1]. by intros [= -> -> ->].
Qed.

Lemma fetch_failure_is_FetchError (stmt : statement) (symbol : string) :
  is_FetchError (Exception (fetch_failure_message stmt symbol)) = true /\
  names symbol (Exception (fetch_failure_message stmt symbol)) /\
  names (statement_name stmt) (Exception (fetch_failure_message stmt symbol)).
Proof.
  split_and!.
  - by destruct stmt.
  - destruct stmt; simpl.
    + by exists "Failed to fetch income statement for ticker symbol ", ".".
    + exists "Failed to fetch balance sheet for ticker symbol ", EmptyString.
      by rewrite append_empty_r.
    + exists "Failed to fetch cash flow statement for ticker symbol ", EmptyString.
      by rewrite append_empty_r.
  - destruct stmt; simpl.
    + by exists "Failed to fetch ", (" for ticker symbol " +:+ symbol +:+ ".").
    + by exists "Failed to fetch ", (" for ticker symbol " +:+ symbol).
    + by exists "Failed to fetch ", (" for ticker symbol " +:+ symbol).
Qed.

Lemma shortage_is_InsufficientDataError (stmt : statement) (symbol : string) :
  is_InsufficientDataError (Exception (shortage_message stmt symbol)) = true /\
  is_FetchError (Exception (shortage_message stmt symbol)) = false /\
  names symbol (Exception (shortage_message stmt symbol)) /\
  names (statement_name stmt) (Exception (shortage_message stmt symbol)).
Proof.
  split_and!.
  - by destruct stmt.
  - by destruct stmt.
  - exists ("Not enough data found in the " +:+ statement_name stmt +:+
            " for ticker symbol "), ".".
    by destruct stmt.
  - by exists "Not enough data found in the ", (" for ticker symbol " +:+ symbol +:+ ".").
Qed.

(** C6: [_call_api] never raises: whatever the transport does, it returns
    a pair, [(None, e)] when [requests.get] or [response.json()] raised
    [e], and [(body, None)] when the body was parsed.  The public
    operations turn the error value into a raised fetch error whose message
    names the symbol: [get_quotes] when its fetch returned an error, and
    [get_financials] for the first statement whose fetch returned an error
    after the statements before it passed. *)
Theorem call_api_never_raises (st : state) :
  (forall url, exists v err,
     _call_api url st = (Returns (v, err), after url st) /\
     match (http_get url (world st)).1 with
     | inl e => v = PyNone /\ err = Some e
     | inr response =>
         match json response with
         | Returns body => v = body /\ err = None
         | Raises e => v = PyNone /\ err = Some e
         end
     end) /\
  (forall symbol v e st',
     _call_api (quote_url (client st) symbol) st = (Returns (v, Some e), st') ->
     exists x, get_quotes symbol st = (Raises x, st') /\
       is_FetchError x = true /\ names symbol x) /\
  (forall symbol minimum_years stmt,
     (forall stmt', earlier stmt' stmt -> passes minimum_years (reply stmt' symbol st)) ->
     (reply stmt symbol st).2 <> None ->
     exists x, (get_financials symbol minimum_years st).1 = Raises x /\
       is_FetchError x = true /\ names symbol x /\ names (statement_name stmt) x).
Proof.
  split_and!.
  - intros url. rewrite call_api_fetch. unfold fetch. simpl.
    destruct (http_get url (world st)) as [[e | response] w]; simpl.
    + by exists PyNone, (Some e).
    + destruct (json response) as [body | e]; simpl.
      * by exists body, None.
      * by exists PyNone, (Some e).
  - intros symbol v e st'. rewrite call_api_fetch, get_quotes_fetch. cbv zeta.
    destruct (fetch _ st) as [[v1 err1] st1]. intros [= -> -> ->]. simpl.
    eexists. split; [done |]. split; [done |].
    by exists "Failed to fetch quote data for ticker symbol ", ".".
  - intros symbol minimum_years stmt Hbefore Herr.
    assert (first_failure symbol minimum_years st = Some (stmt, FetchFailed)) as Hfirst.
    { apply first_failure_Some. split_and!; [by apply judge_FetchFailed | done |].
      intros stmt' Hlt. by apply judge_Pass, Hbefore. }
    rewrite get_financials_spec, Hfirst. simpl.
    eexists. split; [done |]. apply fetch_failure_is_FetchError.
Qed.

Lemma get_financials_result (symbol : string) (minimum_years : Z) (st : state) :
  (get_financials symbol minimum_years st).1 =
  match first_failure symbol minimum_years st with
  | None =>
      Returns (financials_of (reply IncomeStatement symbol st).1
                 (reply BalanceSheet symbol st).1
                 (reply CashFlowStatement symbol st).1)
  | Some (stmt, v) => Raises (failure stmt v symbol)
  end.
Proof.
  rewrite get_financials_spec.
  by destruct (first_failure symbol minimum_years st) as [[stmt v] |].
Qed.

Lemma shortage_message_inj (a b : statement) (symbol : string) :
  shortage_message a symbol = shortage_message b symbol -> a = b.
Proof.
  unfold shortage_message. intros Heq%(inj (String.append _)).
  by destruct a, b; try done; cbv in Heq.
Qed.

Lemma passes_not_short (minimum_years : Z) (r : pyval * option pyexn) :
  passes minimum_years r -> falls_short minimum_years r -> False.
Proof.
  intros [_ (f & n & Hf & Hn & Hle)] [_ (f' & n' & Hf' & Hn' & Hlt)].
  rewrite Hf in Hf'. injection Hf' as <-.
  rewrite Hn in Hn'. injection Hn' as <-. lia.
Qed.

(** C5, amended: [get_financials] raises for lack of data exactly when
    some statement, in the order income statement, balance sheet, cash
    flow statement, is fetched without error with a ["financials"] entry
    shorter than [minimum_years] after every earlier statement passed; the
    message names that statement and the symbol.  A statement that passes
    is never the one named. *)
Theorem insufficient_data_iff (symbol : string) (minimum_years : Z) (st : state) :
  (forall e,
     (get_financials symbol minimum_years st).1 = Raises e /\
     is_InsufficientDataError e = true <->
     exists stmt,
       falls_short minimum_years (reply stmt symbol st) /\
       (forall stmt', earlier stmt' stmt ->
                      passes minimum_years (reply stmt' symbol st)) /\
       e = Exception (shortage_message stmt symbol) /\
       names (statement_name stmt) e /\ names symbol e) /\
  (forall stmt,
     passes minimum_years (reply stmt symbol st) ->
     (get_financials symbol minimum_years st).1 <>
     Raises (Exception (shortage_message stmt symbol))).
Proof.
  assert (forall e,
    (get_financials symbol minimum_years st).1 = Raises e /\
    is_InsufficientDataError e = true <->
    exists stmt, first_failure symbol minimum_years st = Some (stmt, TooShort) /\
      e = Exception (shortage_message stmt symbol)) as Hiff.
  { intros e. rewrite get_financials_result. split.
    - intros [Hrun Hkind].
      destruct (first_failure symbol minimum_years st) as [[stmt v] |] eqn:Hfirst; [| done].
      injection Hrun as <-. destruct v as [| | | x]; simpl in Hkind.
      + by apply first_failure_Some in Hfirst as (_ & ? & _).
      + by destruct stmt.
      + by exists stmt.
      + apply first_failure_Some in Hfirst as (Hx%judge_Broken & _).
        destruct Hx as [_ Hx%has_more_than_minimum_raises].
        destruct Hx as (_ & _ & Hx). by rewrite Hx in Hkind.
    - intros (stmt & -> & ->). split; [done |].
      apply shortage_is_InsufficientDataError. }
  split.
  - intros e. rewrite Hiff. split.
    + intros (stmt & Hfirst & ->). exists stmt.
      apply first_failure_Some in Hfirst as (Hshort%judge_TooShort & _ & Hbefore).
      split_and!; [done | | done | apply shortage_is_InsufficientDataError ..].
      intros stmt' Hlt. by apply judge_Pass, Hbefore.
    + intros (stmt & Hshort & Hbefore & -> & _). exists stmt. split; [| done].
      apply first_failure_Some. split_and!; [by apply judge_TooShort | done |].
      intros stmt' Hlt. by apply judge_Pass, Hbefore.
  - intros stmt Hpass Hrun.
    destruct (proj1 (Hiff _) (conj Hrun (proj1 (shortage_is_InsufficientDataError _ _))))
      as (stmt' & Hfirst & Heq).
    assert (stmt = stmt') as <-.
    { apply (shortage_message_inj _ _ symbol). congruence. }
    apply first_failure_Some in Hfirst as (Hshort%judge_TooShort & _).
    by eapply passes_not_short.
Qed.

Lemma reply_deterministic (stmt : statement) (symbol : string) (st1 st2 : state) :
  deterministic -> client st1 = client st2 ->
  reply stmt symbol st1 = reply stmt symbol st2.
Proof.
  intros Hdet Hclient. unfold reply, fetch. simpl.
  rewrite Hclient. f_equal. apply Hdet.
Qed.

Lemma first_failure_deterministic (symbol : string) (minimum_years : Z)
    (st1 st2 : state) :
  deterministic -> client st1 = client st2 ->
  first_failure symbol minimum_years st1 = first_failure symbol minimum_years st2.
Proof.
  intros Hdet Hclient. unfold first_failure.
  by rewrite !(reply_deterministic _ symbol st1 st2).
Qed.

Lemma get_quotes_client (symbol : string) (st : state) :
  client (get_quotes symbol st).2 = client st.
Proof. by rewrite get_quotes_fetch. Qed.

Lemma get_financials_client (symbol : string) (minimum_years : Z) (st : state) :
  client (get_financials symbol minimum_years st).2 = client st.
Proof.
  rewrite get_financials_spec.
  by destruct (first_failure symbol minimum_years st) as [[[] v] |].
Qed.

(** C7: against a transport that answers by the URL alone, a call of
    [get_quotes] or [get_financials] leaves the client as it was, and the
    same call made again, right after it or in any other state of the
    world with the same client, has the same outcome. *)
Theorem repeated_calls_agree (symbol : string) (minimum_years : Z) (st : state) :
  deterministic ->
  let quote := get_quotes symbol st in
  let financials := get_financials symbol minimum_years st in
  client quote.2 = client st /\
  (get_quotes symbol quote.2).1 = quote.1 /\
  client financials.2 = client st /\
  (get_financials symbol minimum_years financials.2).1 = financials.1 /\
  (forall st', client st' = client st ->
     (get_quotes symbol st').1 = quote.1 /\
     (get_financials symbol minimum_years st').1 = financials.1).
Proof.
  intros Hdet quote financials.
  assert (forall st', client st' = client st ->
     (get_quotes symbol st').1 = quote.1 /\
     (get_financials symbol minimum_years st').1 = financials.1) as Hany.
  { intros st' Hclient. subst quote financials. split.
    - rewrite !get_quotes_fetch. unfold fetch. simpl.
      by rewrite Hclient, (Hdet _ (world st') (world st)).
    - rewrite !get_financials_result.
      rewrite (first_failure_deterministic _ _ st' st) by done.
      by rewrite !(reply_deterministic _ symbol st' st). }
  split_and!; [apply get_quotes_client | | apply get_financials_client | | done].
  - apply Hany, get_quotes_client.
  - apply Hany, get_financials_client.
Qed.

Lemma len_nonnegative (v : pyval) (n : Z) : len v = Returns n -> 0 <= n.
Proof. destruct v; simpl; intros [=]; lia. Qed.

(** With a threshold of zero no statement is too short. *)
Lemma judge_zero_not_TooShort (r : pyval * option pyexn) : judge 0 r <> TooShort.
Proof.
  intros [_ (f & n & _ & Hn%len_nonnegative & Hlt)]%judge_TooShort. lia.
Qed.

(** C8: with [minimum_years = 0], when the three fetches succeed with
    bundles whose ["financials"] entry has a length (the empty sequence
    included), every check holds, [get_financials] returns the three
    bundles and so does not raise for lack of data. *)
Theorem zero_minimum_never_insufficient (symbol : string) (st : state) :
  (forall stmt,
     (reply stmt symbol st).2 = None /\
     exists financials n,
       getitem (reply stmt symbol st).1 "financials" = Returns financials /\
       len financials = Returns n) ->
  (forall stmt, _has_more_than_minimum 0 (reply stmt symbol st).1 = Returns true) /\
  (get_financials symbol 0 st).1 =
    Returns (financials_of (reply IncomeStatement symbol st).1
               (reply BalanceSheet symbol st).1
               (reply CashFlowStatement symbol st).1) /\
  (forall e, (get_financials symbol 0 st).1 = Raises e ->
             is_InsufficientDataError e = false).
Proof.
  intros Hfetched.
  assert (forall stmt, passes 0 (reply stmt symbol st)) as Hpass.
  { intros stmt. destruct (Hfetched stmt) as (Herr & f & n & Hf & Hn).
    split; [done |]. exists f, n. split_and!; try done. by eapply len_nonnegative. }
  assert (first_failure symbol 0 st = None) as Hfirst.
  { apply first_failure_None. intros stmt. by apply judge_Pass. }
  rewrite get_financials_result, Hfirst. split_and!; try done.
  intros stmt. destruct (Hpass stmt) as (_ & f & n & Hf & Hn & Hle).
  apply has_more_than_minimum_returns. exists f, n. split_and!; try done.
  symmetry. apply Z.geb_le. lia.
Qed.

(** Whatever the transport does, a threshold of zero never leads to the
    error for lack of data. *)
Lemma zero_minimum_no_shortage (symbol : string) (st : state) (e : pyexn) :
  (get_financials symbol 0 st).1 = Raises e -> is_InsufficientDataError e = false.
Proof.
  rewrite get_financials_result.
  destruct (first_failure symbol 0 st) as [[stmt v] |] eqn:Hfirst; [| done].
  intros [= <-]. apply first_failure_Some in Hfirst as (Hv & Hne & _).
  destruct v as [| | | x]; simpl; [done | by destruct stmt | |].
  - by apply judge_zero_not_TooShort in Hv.
  - apply judge_Broken in Hv as [_ Hx%has_more_than_minimum_raises].
    by destruct Hx as (_ & _ & Hx).
Qed.

(** C9: when the income statement is fetched without error but the parsed
    body is not a mapping with a ["financials"] key, the unguarded
    subscript raises: [get_financials] fails with a [KeyError] (a mapping
    without the key) or a [TypeError] (not a mapping), which is neither a
    fetch error nor the error for lack of data. *)
Theorem missing_financials_escapes (symbol : string) (minimum_years : Z)
    (st st1 : state) (data : pyval) :
  _get_income_statement symbol st = (Returns (data, None), st1) ->
  (forall d, data = PyDict d -> d !! "financials" = None) ->
  exists e,
    get_financials symbol minimum_years st = (Raises e, st1) /\
    (e = KeyError "financials" \/ e = TypeError (type_name data)) /\
    is_FetchError e = false /\ is_InsufficientDataError e = false.
Proof.
  rewrite get_income_statement_fetch.
  change (fetch _ st).1 with (reply IncomeStatement symbol st).
  intros [= Hreply <-] Hnokey.
  assert (exists e, getitem data "financials" = Raises e /\
            (e = KeyError "financials" \/ e = TypeError (type_name data)))
    as (e & Hget & He).
  { destruct data; simpl; eauto. rewrite (Hnokey d); eauto. }
  assert (first_failure symbol minimum_years st = Some (IncomeStatement, Broken e))
    as Hfirst.
  { unfold first_failure, judge. rewrite Hreply. simpl.
    unfold _has_more_than_minimum. by rewrite Hget. }
  exists e. rewrite get_financials_spec, Hfirst.
  split_and!; [done | done | by destruct He as [-> | ->] ..].
Qed.

Lemma statement_url_upper (self : FinancialModelingPrep) (stmt : statement)
    (symbol : string) :
  statement_url self stmt (upper symbol) = statement_url self stmt symbol.
Proof. unfold statement_url. by rewrite upper_idemp. Qed.

Lemma reply_upper (stmt : statement) (symbol : string) (st : state) :
  reply stmt (upper symbol) st = reply stmt symbol st.
Proof.
  unfold reply, state_before. by rewrite !statement_url_upper.
Qed.

Lemma failure_echo (stmt : statement) (v : verdict) (s1 s2 : string) :
  same_up_to_echo (A := pyval) s1 s2
    (Raises (failure stmt v s1)) (Raises (failure stmt v s2)).
Proof.
  assert (forall s, fetch_failure_message stmt s =
            ("Failed to fetch " +:+ statement_name stmt +:+ " for ticker symbol ") +:+ s +:+
            match stmt with IncomeStatement => "." | _ => EmptyString end) as Hfetch.
  { intros s. destruct stmt; simpl; by rewrite ?append_empty_r. }
  assert (forall s, shortage_message stmt s =
            ("Not enough data found in the " +:+ statement_name stmt +:+
             " for ticker symbol ") +:+ s +:+ ".") as Hshort.
  { intros s. by destruct stmt. }
  destruct v; simpl; [right | right | right | by left];
    eexists _, _; by rewrite ?Hfetch, ?Hshort.
Qed.

(** C10, amended: [get_quotes] and [get_financials] request the same URLs
    and leave the same state for a symbol and for its upper-case form, and
    their outcomes are the same apart from the symbol, in the casing the
    caller gave, echoed in the message of a raised [Exception]. *)
Theorem symbol_case_insensitive (symbol : string) (minimum_years : Z) (st : state) :
  quote_url (client st) (upper symbol) = quote_url (client st) symbol /\
  (forall stmt, statement_url (client st) stmt (upper symbol) =
                statement_url (client st) stmt symbol) /\
  (get_quotes (upper symbol) st).2 = (get_quotes symbol st).2 /\
  same_up_to_echo symbol (upper symbol)
    (get_quotes symbol st).1 (get_quotes (upper symbol) st).1 /\
  (get_financials (upper symbol) minimum_years st).2 =
    (get_financials symbol minimum_years st).2 /\
  same_up_to_echo symbol (upper symbol)
    (get_financials symbol minimum_years st).1
    (get_financials (upper symbol) minimum_years st).1.
Proof.
  assert (quote_url (client st) (upper symbol) = quote_url (client st) symbol) as Hurl.
  { unfold quote_url. by rewrite upper_idemp. }
  assert (first_failure (upper symbol) minimum_years st =
          first_failure symbol minimum_years st) as Hfirst.
  { unfold first_failure. by rewrite !reply_upper. }
  assert (forall stmt, state_after stmt (upper symbol) st = state_after stmt symbol st)
    as Hafter.
  { intros stmt. unfold state_after, state_before. by rewrite !statement_url_upper. }
  split_and!; [done | intros; apply statement_url_upper | ..].
  - rewrite !get_quotes_fetch. simpl. by rewrite Hurl.
  - rewrite !get_quotes_fetch. simpl. rewrite Hurl.
    destruct (api_result _).2; [right | by left].
    by exists "Failed to fetch quote data for ticker symbol ", ".".
  - rewrite !get_financials_spec, Hfirst.
    destruct (first_failure symbol minimum_years st) as [[stmt v] |]; simpl;
      by rewrite Hafter.
  - rewrite !get_financials_result, Hfirst, !reply_upper.
    destruct (first_failure symbol minimum_years st) as [[stmt v] |];
      [apply failure_echo | by left].
Qed.
End Properties.

(** ** The client at work *)

(** No URL that a client built by [__init__] requests starts with the
    versioned base [_version self]. *)
Lemma requested_url_not_versioned (repr symbol rest : string) :
  quote_url (__init__ repr) symbol <> _version (__init__ repr) +:+ rest /\
  forall stmt,
    statement_url (__init__ repr) stmt symbol <> _version (__init__ repr) +:+ rest.
Proof.
  split; [| intros stmt]; intros Heq; cbv -[upper] in Heq; discriminate Heq.
Qed.

(** C3: [get_quotes "aapl"] against a transport that answers with the JSON
    object [{"symbol": "AAPL", "price": 150.0}]: [_call_api] returns the
    parsed object and no error, and [get_quotes] then raises
    [AttributeError] instead of returning the object. *)
Theorem get_quotes_raises_on_parsed_quote :
  let st := fresh (H := scripted) [ok aapl_quote] in
  let st' := {| client := a_client; world := [] : @World scripted;
                requested := [quote_url a_client "aapl"] |} in
  _call_api (quote_url a_client "aapl") st = (Returns (aapl_quote, None), st') /\
  get_quotes "aapl" st = (Raises (AttributeError "dict" "json"), st').
Proof. split; vm_compute; reflexivity. Qed.

(** C4: the URLs requested are not the documented ones.  [get_quotes "aapl"]
    requests the text of the bound method [_version] followed by
    [quote/AAPL], not [financialmodelingprep.com/api/v3/quote/AAPL], and the
    three statement requests of [get_financials "msft" 3] start with the
    text of the bound method [_financials]; no URL requested by a client
    starts with its versioned base. *)
Theorem requested_urls_are_method_reprs :
  requested (get_quotes "aapl" (fresh (H := scripted) [ok aapl_quote])).2 =
    ["<bound method FinancialModelingPrep._version of <financial_modeling_prep.financial_modeling_prep.FinancialModelingPrep object at 0x7f3a5c1d2e80>>quote/AAPL"] /\
  _version a_client +:+ "quote/" +:+ upper "aapl" =
    "financialmodelingprep.com/api/v3/quote/AAPL" /\
  requested (get_financials "msft" 3 (fresh (H := scripted) msft_full)).2 =
    ["<bound method FinancialModelingPrep._financials of <financial_modeling_prep.financial_modeling_prep.FinancialModelingPrep object at 0x7f3a5c1d2e80>>income-statement/MSFT";
     "<bound method FinancialModelingPrep._financials of <financial_modeling_prep.financial_modeling_prep.FinancialModelingPrep object at 0x7f3a5c1d2e80>>balance-sheet-statement/MSFT";
     "<bound method FinancialModelingPrep._financials of <financial_modeling_prep.financial_modeling_prep.FinancialModelingPrep object at 0x7f3a5c1d2e80>>cash-flow-statement/MSFT"] /\
  (forall repr symbol rest,
     quote_url (__init__ repr) symbol <> _version (__init__ repr) +:+ rest) /\
  (forall repr stmt symbol rest,
     statement_url (__init__ repr) stmt symbol <> _version (__init__ repr) +:+ rest).
Proof.
  split_and!; [by vm_compute .. | |].
  - intros repr symbol rest. apply requested_url_not_versioned.
  - intros repr stmt symbol rest. apply requested_url_not_versioned.
Qed.

(** C5 as stated fails: with three periods of the income statement and of
    the balance sheet and two of the cash flow statement, and a threshold
    of three, [get_financials] raises for lack of data although the first
    statement fetched without error, the income statement, is long
    enough. *)
Lemma first_fetched_reading_fails :
  ~ insufficient_iff_first_fetched_short (H := scripted) "msft" 3
      (fresh (H := scripted) msft_short_cash_flow).
Proof.
  intros [Hraised _].
  destruct Hraised as (stmt & Hfirst & Hshort).
  { eexists. split; by vm_compute. }
  vm_compute in Hfirst. injection Hfirst as <-.
  apply judge_TooShort in Hshort. by vm_compute in Hshort.
Qed.

(** C10 as stated fails: when the fetch fails, [get_quotes "aapl"] and
    [get_quotes "AAPL"] raise exceptions with different messages. *)
Lemma get_quotes_outcome_depends_on_case :
  (get_quotes "aapl" (fresh (H := scripted) [timed_out])).1 <>
  (get_quotes (upper "aapl") (fresh (H := scripted) [timed_out])).1.
Proof. by vm_compute. Qed.

(** [get_financials "msft" 3] on three full statements returns the three
    bundles. *)
Lemma get_financials_returns_complete_witness :
  let st := fresh (H := scripted) msft_full in
  let run := get_financials "msft" 3 st in
  let b := bundle "MSFT" three_periods in
  run = (Returns (financials_of b b b), run.2) /\
  exists (income balance cash_flow : pyval) (st1 st2 : state) (d : gmap string pyval),
    _get_income_statement "msft" st = (Returns (income, None), st1) /\
    _get_balance_sheet "msft" st1 = (Returns (balance, None), st2) /\
    _get_cash_flow_statement "msft" st2 = (Returns (cash_flow, None), run.2) /\
    financials_of b b b = PyDict d /\
    dom d = {[ "income_statement"; "balance_sheet"; "cash_flow_statement" ]} /\
    d !! "income_statement" = Some income /\
    d !! "balance_sheet" = Some balance /\
    d !! "cash_flow_statement" = Some cash_flow /\
    holds_periods 3 income /\
    holds_periods 3 balance /\
    holds_periods 3 cash_flow.
Proof.
  intros st run b.
  assert (run = (Returns (financials_of b b b), run.2)) as Hrun.
  { vm_compute. reflexivity. }
  split; [exact Hrun |].
  exact (get_financials_returns_complete "msft" 3 st run.2 (financials_of b b b) Hrun).
Defined.

(** A fetch that times out: [get_quotes "aapl"] raises a fetch error that
    names [aapl]. *)
Lemma call_api_never_raises_witness :
  let st := fresh (H := scripted) [timed_out] in
  let st' := {| client := a_client; world := [] : @World scripted;
                requested := [quote_url a_client "aapl"] |} in
  _call_api (quote_url a_client "aapl") st =
    (Returns (PyNone, Some (TransportError "ConnectTimeout" "timed out")), st') /\
  exists x, get_quotes "aapl" st = (Raises x, st') /\
    is_FetchError x = true /\ names "aapl" x.
Proof.
  intros st st'.
  assert (_call_api (quote_url (client st) "aapl") st =
    (Returns (PyNone, Some (TransportError "ConnectTimeout" "timed out")), st')) as Hcall.
  { vm_compute. reflexivity. }
  split; [exact Hcall |].
  exact (proj1 (proj2 (call_api_never_raises st)) "aapl" _ _ _ Hcall).
Defined.

(** A body that is not JSON is an error value as well. *)
Example call_api_undecodable :
  (_call_api "financialmodelingprep.com" (fresh (H := scripted) [undecodable])).1 =
  Returns (PyNone, Some (TransportError "JSONDecodeError" "Expecting value")).
Proof. reflexivity. Qed.

(** The cash flow statement is the one that is too short. *)
Lemma insufficient_data_iff_witness :
  let st := fresh (H := scripted) msft_short_cash_flow in
  (get_financials "msft" 3 st).1 =
    Raises (Exception "Not enough data found in the cash flow statement for ticker symbol msft.") /\
  is_InsufficientDataError
    (Exception "Not enough data found in the cash flow statement for ticker symbol msft.") = true.
Proof.
  intros st.
  apply (proj1 (insufficient_data_iff "msft" 3 st)).
  exists CashFlowStatement. split_and!.
  - apply judge_TooShort. vm_compute. reflexivity.
  - intros stmt' Hlt. apply judge_Pass.
    destruct stmt'; [vm_compute; reflexivity .. | vm_compute in Hlt; lia].
  - reflexivity.
  - by exists "Not enough data found in the ", " for ticker symbol msft.".
  - by exists "Not enough data found in the cash flow statement for ticker symbol ", ".".
Defined.

(** The counting server answers by the URL alone. *)
Lemma repeated_calls_agree_witness :
  deterministic (H := counting_server) /\
  let st := fresh (H := counting_server) 0%nat in
  let quote := get_quotes (H := counting_server) "msft" st in
  let financials := get_financials (H := counting_server) "msft" 3 st in
  client (H := counting_server) quote.2 = client st /\
  (get_quotes "msft" quote.2).1 = quote.1 /\
  client (H := counting_server) financials.2 = client st /\
  (get_financials "msft" 3 financials.2).1 = financials.1 /\
  (forall st', client (H := counting_server) st' = client st ->
     (get_quotes "msft" st').1 = quote.1 /\
     (get_financials "msft" 3 st').1 = financials.1).
Proof.
  assert (deterministic (H := counting_server)) as Hdet.
  { intros url w1 w2. reflexivity. }
  split; [exact Hdet |].
  exact (repeated_calls_agree (H := counting_server) "msft" 3
           (fresh (H := counting_server) 0%nat) Hdet).
Defined.

(** Three statements without any period pass a threshold of zero. *)
Lemma zero_minimum_never_insufficient_witness :
  let st := fresh (H := scripted) xyz_empty in
  (forall stmt,
     (reply stmt "xyz" st).2 = None /\
     exists financials n,
       getitem (reply stmt "xyz" st).1 "financials" = Returns financials /\
       len financials = Returns n) /\
  (get_financials "xyz" 0 st).1 =
    Returns (financials_of (reply IncomeStatement "xyz" st).1
               (reply BalanceSheet "xyz" st).1
               (reply CashFlowStatement "xyz" st).1).
Proof.
  intros st.
  assert (forall stmt,
     (reply stmt "xyz" st).2 = None /\
     exists financials n,
       getitem (reply stmt "xyz" st).1 "financials" = Returns financials /\
       len financials = Returns n) as Hfetched.
  { intros stmt. split; [destruct stmt; vm_compute; reflexivity |].
    exists (PyList []), 0. destruct stmt; split; vm_compute; reflexivity. }
  split; [exact Hfetched |].
  exact (proj1 (proj2 (zero_minimum_never_insufficient "xyz" st Hfetched))).
Defined.

(** An error body in place of the income statement. *)
Lemma missing_financials_escapes_witness :
  let st := fresh (H := scripted) [ok error_body] in
  let st1 := {| client := a_client; world := [] : @World scripted;
                requested := [statement_url a_client IncomeStatement "msft"] |} in
  _get_income_statement "msft" st = (Returns (error_body, None), st1) /\
  exists e,
    get_financials "msft" 3 st = (Raises e, st1) /\
    (e = KeyError "financials" \/ e = TypeError (type_name error_body)) /\
    is_FetchError e = false /\ is_InsufficientDataError e = false.
Proof.
  intros st st1.
  assert (_get_income_statement "msft" st = (Returns (error_body, None), st1)) as Hget.
  { vm_compute. reflexivity. }
  split; [exact Hget |].
  apply (missing_financials_escapes "msft" 3 st st1 error_body Hget).
  unfold error_body. intros d [= <-]. vm_compute. reflexivity.
Defined.

(** ** Further properties of the operations *)

Section Outcomes.
Context `{Transport}.

(** X1: [get_quotes] makes exactly one request, to the quote URL, and then
    always raises: the fetch failure when [_call_api] returned an error
    value, and otherwise [AttributeError] for the attribute [json] of the
    parsed body, whatever the body is.  It never returns. *)
Theorem get_quotes_always_raises (symbol : string) (st : state) :
  let url := quote_url (client st) symbol in
  (get_quotes symbol st).2 = (_call_api url st).2 /\
  requested (get_quotes symbol st).2 = (requested st ++ [url])%list /\
  (forall v, (get_quotes symbol st).1 <> Returns v) /\
  match (_call_api url st).1 with
  | Returns (body, None) =>
      (get_quotes symbol st).1 = Raises (AttributeError (type_name body) "json")
  | Returns (_, Some _) =>
      (get_quotes symbol st).1 =
      Raises (Exception ("Failed to fetch quote data for ticker symbol " +:+ symbol +:+ "."))
  | Raises _ => False
  end.
Proof.
  intros url. subst url. rewrite get_quotes_fetch, call_api_fetch. cbv zeta.
  destruct (fetch (quote_url (client st) symbol) st) as [[body err] st1] eqn:Hfetch.
  assert (st1 = after (quote_url (client st) symbol) st) as ->.
  { unfold fetch in Hfetch. by injection Hfetch. }
  simpl. split_and!; try done; by destruct err.
Qed.

(** X2: [get_financials] returns exactly when each of the three
    statements, fetched in order, comes without error and with a
    ["financials"] entry of length at least [minimum_years]; it then
    returns the three bundles as they were fetched and has made the three
    requests. *)
Theorem get_financials_returns_iff (symbol : string) (minimum_years : Z) (st : state) :
  ((exists result, (get_financials symbol minimum_years st).1 = Returns result) <->
   forall stmt, passes minimum_years (reply stmt symbol st)) /\
  ((forall stmt, passes minimum_years (reply stmt symbol st)) ->
   get_financials symbol minimum_years st =
   (Returns (financials_of (reply IncomeStatement symbol st).1
               (reply BalanceSheet symbol st).1
               (reply CashFlowStatement symbol st).1),
    state_after CashFlowStatement symbol st)).
Proof.
  assert ((forall stmt, passes minimum_years (reply stmt symbol st)) <->
          first_failure symbol minimum_years st = None) as Hnone.
  { rewrite first_failure_None. split; intros Hall stmt; by apply judge_Pass. }
  split.
  - rewrite Hnone, get_financials_result.
    destruct (first_failure symbol minimum_years st) as [[stmt v] |].
    + split; [by intros [result ?] | done].
    + split; [done | by eexists].
  - intros Hall%Hnone. by rewrite get_financials_spec, Hall.
Qed.

(** The messages tell the kind of error, the statement and the symbol. *)
Lemma append_dot_inj (s1 s2 : string) : s1 +:+ "." = s2 +:+ "." -> s1 = s2.
Proof.
  revert s2. induction s1 as [| c s1 IH]; intros [| c' s2] Heq; cbv in Heq.
  - done.
  - injection Heq as <- Heq. by destruct s2.
  - injection Heq as -> Heq. by destruct s1.
  - injection Heq as -> Heq. f_equal. by apply IH.
Qed.

Lemma fetch_failure_not_shortage (a b : statement) (s1 s2 : string) :
  fetch_failure_message a s1 <> shortage_message b s2.
Proof. intros Heq. destruct a, b; cbv in Heq; discriminate Heq. Qed.

Lemma fetch_failure_message_inj (a b : statement) (s1 s2 : string) :
  fetch_failure_message a s1 = fetch_failure_message b s2 -> a = b /\ s1 = s2.
Proof.
  intros Heq. destruct a, b; try (cbv in Heq; discriminate Heq); split; try done.
  - apply (inj (String.append _)) in Heq. by apply append_dot_inj.
  - by apply (inj (String.append _)) in Heq.
  - by apply (inj (String.append _)) in Heq.
Qed.

Lemma shortage_message_inj_symbol (a b : statement) (s1 s2 : string) :
  shortage_message a s1 = shortage_message b s2 -> a = b /\ s1 = s2.
Proof.
  unfold shortage_message. intros Heq%(inj (String.append _)).
  destruct a, b; try (cbv in Heq; discriminate Heq); split; try done.
  all: apply (inj (String.append _)) in Heq.
  all: apply (inj (String.append _)) in Heq; by apply append_dot_inj.
Qed.

(** How a verdict moves with the threshold. *)
Lemma judge_lower (m m' : Z) (r : pyval * option pyexn) :
  m' <= m -> judge m r = Pass -> judge m' r = Pass.
Proof.
  intros Hle [Herr (f & n & Hf & Hn & Hm)]%judge_Pass. apply judge_Pass.
  split; [done |]. exists f, n. split_and!; try done. lia.
Qed.

Lemma judge_higher (m m' : Z) (r : pyval * option pyexn) :
  m <= m' -> judge m r = TooShort -> judge m' r = TooShort.
Proof.
  intros Hle [Herr (f & n & Hf & Hn & Hm)]%judge_TooShort. apply judge_TooShort.
  split; [done |]. exists f, n. split_and!; try done. lia.
Qed.

Lemma judge_Pass_or_TooShort (m m' : Z) (r : pyval * option pyexn) :
  judge m r = Pass -> judge m' r = Pass \/ judge m' r = TooShort.
Proof.
  intros [Herr (f & n & Hf & Hn & Hm)]%judge_Pass.
  destruct (decide (m' <= n)).
  - left. apply judge_Pass. split; [done |]. by exists f, n.
  - right. apply judge_TooShort. split; [done |]. exists f, n.
    split_and!; try done. lia.
Qed.

(** X4: lowering the threshold keeps a success: when [get_financials]
    returns for [minimum_years], it returns the same mapping and leaves
    the same state for every smaller threshold. *)
Theorem lower_threshold_still_returns (symbol : string) (m m' : Z)
    (st st' : state) (result : pyval) :
  m' <= m ->
  get_financials symbol m st = (Returns result, st') ->
  get_financials symbol m' st = (Returns result, st').
Proof.
  intros Hle. rewrite !get_financials_spec.
  destruct (first_failure symbol m st) as [[stmt v] |] eqn:Hfirst; [done |].
  intros Hrun.
  assert (first_failure symbol m' st = None) as ->; [| done].
  apply first_failure_None. intros stmt.
  eapply judge_lower; [done |]. by apply first_failure_None.
Qed.

(** X5: raising the threshold keeps a shortage: when [get_financials]
    raises for lack of data in some statement, then for every larger
    threshold it raises for lack of data too, in that statement or in one
    fetched before it. *)
Theorem higher_threshold_still_short (symbol : string) (m m' : Z) (st : state)
    (stmt : statement) :
  m <= m' ->
  (get_financials symbol m st).1 = Raises (Exception (shortage_message stmt symbol)) ->
  exists stmt',
    (rank stmt' <= rank stmt)%nat /\
    (get_financials symbol m' st).1 = Raises (Exception (shortage_message stmt' symbol)).
Proof.
  intros Hle. rewrite !get_financials_result.
  destruct (first_failure symbol m st) as [[stmt0 v] |] eqn:Hfirst; [| done].
  intros [= Hmsg].
  apply first_failure_Some in Hfirst as (Hv & Hne & Hbefore).
  assert (v = TooShort /\ stmt0 = stmt) as [-> ->].
  { destruct v as [| | | x]; simpl in Hmsg.
    - done.
    - exfalso. apply (fetch_failure_not_shortage stmt0 stmt symbol symbol). congruence.
    - split; [done |]. apply (shortage_message_inj _ _ symbol). congruence.
    - apply judge_Broken in Hv as [_ Hx%has_more_than_minimum_raises].
      destruct Hx as ([-> | [t ->]] & _); done. }
  apply (judge_higher m m') in Hv; [| done].
  assert (forall a, earlier a stmt -> judge m' (reply a symbol st) = Pass \/
                                      judge m' (reply a symbol st) = TooShort) as Hearly.
  { intros a Ha. eapply judge_Pass_or_TooShort. by apply Hbefore. }
  assert (exists stmt', (rank stmt' <= rank stmt)%nat /\
            first_failure symbol m' st = Some (stmt', TooShort)) as (stmt' & Hrank & ->);
    [| by exists stmt'].
  unfold first_failure, earlier in *.
  destruct stmt; simpl in *.
  - exists IncomeStatement. by rewrite Hv.
  - destruct (Hearly IncomeStatement) as [-> | ->]; [simpl; lia | |].
    + exists BalanceSheet. by rewrite Hv.
    + exists IncomeStatement. split; [simpl; lia | done].
  - destruct (Hearly IncomeStatement) as [-> | ->]; [simpl; lia | |].
    + destruct (Hearly BalanceSheet) as [-> | ->]; [simpl; lia | |].
      * exists CashFlowStatement. by rewrite Hv.
      * exists BalanceSheet. split; [simpl; lia | done].
    + exists IncomeStatement. split; [simpl; lia | done].
Qed.

(** X6: a threshold of zero or less is accepted and never leads to the
    error for lack of data, whatever the transport answers. *)
Theorem nonpositive_minimum_never_short (symbol : string) (minimum_years : Z)
    (st : state) (e : pyexn) :
  minimum_years <= 0 ->
  (get_financials symbol minimum_years st).1 = Raises e ->
  is_InsufficientDataError e = false.
Proof.
  intros Hle. rewrite get_financials_result.
  destruct (first_failure symbol minimum_years st) as [[stmt v] |] eqn:Hfirst; [| done].
  intros [= <-]. apply first_failure_Some in Hfirst as (Hv & Hne & _).
  destruct v as [| | | x]; simpl; [done | by destruct stmt | |].
  - apply judge_TooShort in Hv as [_ (f & n & _ & Hn%len_nonnegative & Hlt)]. lia.
  - apply judge_Broken in Hv as [_ Hx%has_more_than_minimum_raises].
    by destruct Hx as (_ & _ & Hx).
Qed.

(** X7: every exception [get_financials] raises comes from the first
    statement that does not pass, and is one of: the fetch failure of that
    statement, when its fetch returned an error value; the shortage of
    that statement, when it was fetched with too few periods; or the
    [KeyError] or [TypeError] that the check raised on the fetched body.
    The exception the transport raised is never raised again. *)
Theorem get_financials_raise_kinds (symbol : string) (minimum_years : Z)
    (st : state) (e : pyexn) :
  (get_financials symbol minimum_years st).1 = Raises e ->
  (forall cls msg, e <> TransportError cls msg) /\
  exists stmt,
    (forall stmt', earlier stmt' stmt ->
                   passes minimum_years (reply stmt' symbol st)) /\
    ((reply stmt symbol st).2 <> None /\
     e = Exception (fetch_failure_message stmt symbol) \/
     falls_short minimum_years (reply stmt symbol st) /\
     e = Exception (shortage_message stmt symbol) \/
     (reply stmt symbol st).2 = None /\
     _has_more_than_minimum minimum_years (reply stmt symbol st).1 = Raises e /\
     (e = KeyError "financials" \/ exists type, e = TypeError type)).
Proof.
  rewrite get_financials_result.
  destruct (first_failure symbol minimum_years st) as [[stmt v] |] eqn:Hfirst; [| done].
  intros [= <-]. apply first_failure_Some in Hfirst as (Hv & Hne & Hbefore).
  assert (forall stmt', earlier stmt' stmt ->
            passes minimum_years (reply stmt' symbol st)) as Hpass.
  { intros stmt' Hlt. by apply judge_Pass, Hbefore. }
  destruct v as [| | | x]; simpl; [done | | |].
  - split; [done |]. exists stmt. split; [done |]. left.
    split; [by apply (judge_FetchFailed minimum_years) | done].
  - split; [done |]. exists stmt. split; [done |]. right; left.
    split; [by apply judge_TooShort | done].
  - apply judge_Broken in Hv as [Herr Hx].
    pose proof (has_more_than_minimum_raises _ _ _ Hx) as (Hkind & _).
    split; [by destruct Hkind as [-> | [t ->]] |].
    exists stmt. split; [done |]. by right; right.
Qed.

Lemma raised_message_origin (symbol : string) (minimum_years : Z) (st : state)
    (msg : string) :
  (get_financials symbol minimum_years st).1 = Raises (Exception msg) ->
  exists stmt,
    first_failure symbol minimum_years st = Some (stmt, FetchFailed) /\
    msg = fetch_failure_message stmt symbol \/
    first_failure symbol minimum_years st = Some (stmt, TooShort) /\
    msg = shortage_message stmt symbol.
Proof.
  rewrite get_financials_result.
  destruct (first_failure symbol minimum_years st) as [[stmt v] |] eqn:Hfirst; [| done].
  intros Hmsg. exists stmt.
  pose proof (proj1 (first_failure_Some _ _ _ _ _) Hfirst) as (Hv & Hne & _).
  destruct v as [| | | x]; simpl in Hmsg; [done | | |].
  - left. split; [done |]. congruence.
  - right. split; [done |]. congruence.
  - apply judge_Broken in Hv as [_ Hx%has_more_than_minimum_raises].
    destruct Hx as ([-> | [t ->]] & _); done.
Qed.

(** X8: the message of an [Exception] raised by [get_financials] tells
    the call apart: two calls that raise an [Exception] with the same
    message were made for the same symbol, as the caller spelled it, and
    failed at the same statement for the same reason, a failed fetch or too
    few periods. *)
Theorem raised_message_identifies (s1 s2 : string) (m1 m2 : Z) (st1 st2 : state)
    (msg : string) :
  (get_financials s1 m1 st1).1 = Raises (Exception msg) ->
  (get_financials s2 m2 st2).1 = Raises (Exception msg) ->
  s1 = s2 /\
  exists stmt v,
    (v = FetchFailed \/ v = TooShort) /\
    first_failure s1 m1 st1 = Some (stmt, v) /\
    first_failure s2 m2 st2 = Some (stmt, v).
Proof.
  intros (a & [[Ha ->] | [Ha ->]])%raised_message_origin
         (b & [[Hb Hmsg] | [Hb Hmsg]])%raised_message_origin.
  - apply fetch_failure_message_inj in Hmsg as [-> ->]. split; [done |].
    exists b, FetchFailed. auto.
  - by apply fetch_failure_not_shortage in Hmsg.
  - symmetry in Hmsg. by apply fetch_failure_not_shortage in Hmsg.
  - apply shortage_message_inj_symbol in Hmsg as [-> ->]. split; [done |].
    exists b, TooShort. auto.
Qed.

Lemma quote_url_inj (self : FinancialModelingPrep) (s1 s2 : string) :
  quote_url self s1 = quote_url self s2 <-> upper s1 = upper s2.
Proof.
  unfold quote_url. split; [| by intros ->].
  intros Heq%(inj (String.append _)). by apply (inj (String.append _)) in Heq.
Qed.

Lemma statement_url_inj (self : FinancialModelingPrep) (a b : statement)
    (s1 s2 : string) :
  statement_url self a s1 = statement_url self b s2 <-> a = b /\ upper s1 = upper s2.
Proof.
  unfold statement_url. split; [| by intros [-> ->]].
  intros Heq%(inj (String.append _)).
  destruct a, b; try (cbv -[upper] in Heq; discriminate Heq); split; try done.
  all: by apply (inj (String.append _)) in Heq.
Qed.

Lemma quote_url_not_statement_url (self : FinancialModelingPrep) (b : statement)
    (s1 s2 : string) :
  quote_url self s1 <> statement_url self b s2.
Proof.
  unfold quote_url, statement_url, bound_method. intros Heq.
  cbv -[upper] in Heq. discriminate Heq.
Qed.

Lemma log_snoc_inj (log : list string) (u1 u2 : string) :
  (log ++ [u1])%list = (log ++ [u2])%list <-> u1 = u2.
Proof. split; [by intros [= ->]%(inj (app log)) | by intros ->]. Qed.

(** X9: the URL of a request tells which endpoint and which symbol it is
    for.  Two calls of the same operation request the same URL exactly
    when their symbols agree up to the case of letters, and the quote and
    the three statements are never requested at the same URL, whatever
    the symbols. *)
Theorem requests_tell_calls_apart (st : state) (s1 s2 : string) :
  let quote s := requested (get_quotes s st).2 in
  let income s := requested (_get_income_statement s st).2 in
  let balance s := requested (_get_balance_sheet s st).2 in
  let cash_flow s := requested (_get_cash_flow_statement s st).2 in
  (quote s1 = quote s2 <-> upper s1 = upper s2) /\
  (income s1 = income s2 <-> upper s1 = upper s2) /\
  (balance s1 = balance s2 <-> upper s1 = upper s2) /\
  (cash_flow s1 = cash_flow s2 <-> upper s1 = upper s2) /\
  quote s1 <> income s2 /\ quote s1 <> balance s2 /\ quote s1 <> cash_flow s2 /\
  income s1 <> balance s2 /\ income s1 <> cash_flow s2 /\ balance s1 <> cash_flow s2.
Proof.
  intros quote income balance cash_flow. subst quote income balance cash_flow.
  cbv beta.
  rewrite !get_quotes_fetch, !get_income_statement_fetch, !get_balance_sheet_fetch,
    !get_cash_flow_statement_fetch.
  cbn [snd fetch after requested]. rewrite !log_snoc_inj.
  rewrite quote_url_inj, !statement_url_inj.
  split_and!;
    first [apply quote_url_not_statement_url | by intros [? _] | by intuition].
Qed.
End Outcomes.

(** Three full statements of MSFT pass a threshold of three. *)
Lemma get_financials_returns_iff_witness :
  let st := fresh (H := scripted) msft_full in
  (forall stmt, passes 3 (reply stmt "msft" st)) /\
  get_financials "msft" 3 st =
  (Returns (financials_of (reply IncomeStatement "msft" st).1
              (reply BalanceSheet "msft" st).1
              (reply CashFlowStatement "msft" st).1),
   state_after CashFlowStatement "msft" st).
Proof.
  intros st.
  assert (forall stmt, passes 3 (reply stmt "msft" st)) as Hall.
  { intros stmt. apply judge_Pass. destruct stmt; vm_compute; reflexivity. }
  split; [exact Hall |].
  exact (proj2 (get_financials_returns_iff "msft" 3 st) Hall).
Defined.

(** What passes a threshold of three passes a threshold of one. *)
Lemma lower_threshold_still_returns_witness :
  let st := fresh (H := scripted) msft_full in
  let run := get_financials "msft" 3 st in
  let b := bundle "MSFT" three_periods in
  run = (Returns (financials_of b b b), run.2) /\
  get_financials "msft" 1 st = (Returns (financials_of b b b), run.2).
Proof.
  intros st run b.
  assert (run = (Returns (financials_of b b b), run.2)) as Hrun.
  { vm_compute. reflexivity. }
  split; [exact Hrun |].
  apply (lower_threshold_still_returns "msft" 3 1 st run.2 (financials_of b b b));
    [lia | exact Hrun].
Defined.

(** With a threshold of three the cash flow statement is too short; with
    a threshold of four a statement up to it is. *)
Lemma higher_threshold_still_short_witness :
  let st := fresh (H := scripted) msft_short_cash_flow in
  (get_financials "msft" 3 st).1 =
    Raises (Exception (shortage_message CashFlowStatement "msft")) /\
  exists stmt',
    (rank stmt' <= rank CashFlowStatement)%nat /\
    (get_financials "msft" 4 st).1 =
      Raises (Exception (shortage_message stmt' "msft")).
Proof.
  intros st.
  assert ((get_financials "msft" 3 st).1 =
    Raises (Exception (shortage_message CashFlowStatement "msft"))) as Hrun.
  { vm_compute. reflexivity. }
  split; [exact Hrun |].
  apply (higher_threshold_still_short "msft" 3 4 st CashFlowStatement); [lia | exact Hrun].
Defined.

(** A negative threshold: an empty statement passes, and the failure of
    the next fetch is not a shortage. *)
Lemma nonpositive_minimum_never_short_witness :
  let st := fresh (H := scripted) [ok (bundle "XYZ" []); timed_out] in
  (get_financials "xyz" (-1) st).1 =
    Raises (Exception "Failed to fetch balance sheet for ticker symbol xyz") /\
  is_InsufficientDataError
    (Exception "Failed to fetch balance sheet for ticker symbol xyz") = false.
Proof.
  intros st.
  assert ((get_financials "xyz" (-1) st).1 =
    Raises (Exception "Failed to fetch balance sheet for ticker symbol xyz")) as Hrun.
  { vm_compute. reflexivity. }
  split; [exact Hrun |].
  apply (nonpositive_minimum_never_short "xyz" (-1) st); [lia | exact Hrun].
Defined.

(** An error body in place of the income statement: the [KeyError] of the
    check is what is raised. *)
Lemma get_financials_raise_kinds_witness :
  let st := fresh (H := scripted) [ok error_body] in
  (get_financials "msft" 3 st).1 = Raises (KeyError "financials") /\
  forall cls msg, KeyError "financials" <> TransportError cls msg.
Proof.
  intros st.
  assert ((get_financials "msft" 3 st).1 = Raises (KeyError "financials")) as Hrun.
  { vm_compute. reflexivity. }
  split; [exact Hrun |].
  exact (proj1 (get_financials_raise_kinds "msft" 3 st _ Hrun)).
Defined.

(** Two calls that fail for lack of cash flow data of [msft]. *)
Lemma raised_message_identifies_witness :
  let st1 := fresh (H := scripted) msft_short_cash_flow in
  let st2 := fresh (H := scripted)
               [ok (bundle "MSFT" three_periods); ok (bundle "MSFT" two_periods);
                ok (bundle "MSFT" [])] in
  let msg := "Not enough data found in the cash flow statement for ticker symbol msft." in
  (get_financials "msft" 3 st1).1 = Raises (Exception msg) /\
  (get_financials "msft" 1 st2).1 = Raises (Exception msg) /\
  exists stmt v,
    (v = FetchFailed \/ v = TooShort) /\
    first_failure "msft" 3 st1 = Some (stmt, v) /\
    first_failure "msft" 1 st2 = Some (stmt, v).
Proof.
  intros st1 st2 msg.
  assert ((get_financials "msft" 3 st1).1 = Raises (Exception msg)) as Hrun1.
  { vm_compute. reflexivity. }
  assert ((get_financials "msft" 1 st2).1 = Raises (Exception msg)) as Hrun2.
  { vm_compute. reflexivity. }
  split; [exact Hrun1 |]. split; [exact Hrun2 |].
  exact (proj2 (raised_message_identifies "msft" "msft" 3 1 st1 st2 msg Hrun1 Hrun2)).
Defined.
